(** * Trading session orchestrator: a shallow embedding and its properties

    The development follows the JavaScript sources of the repository:

    - [services/RiskManager.js]            (module [RiskManager])
    - [services/TradingEngine.js]          (module [TradingEngine])
    - [services/MarketDataStream.js]       (module [MarketDataStream])
    - [services/TradingSessionManager.js]  (module [TradingSessionManager])

    Conventions of the embedding.

    - Module [JS] reads a JavaScript number as an exact rational or [NaN];
      comparisons involving [NaN] are false, arithmetic on [NaN] yields
      [NaN].  It serves the statements that rest on comparisons and on the
      order of numbers, which rounding preserves.  Module [Double] gives
      the functions whose result is a product, a power, a sum or a
      difference on IEEE 754 binary64 numbers, bit for bit.
    - Values whose JavaScript type is inspected by the code ([typeof],
      truthiness, [||]) are kept as tagged [value]s.
    - Counters that the code only ever resets to [0] or increments by [1]
      are natural numbers.
    - Logging has no effect on the modelled state and is left out.
    - An [async] function is cut at its [await]s: each piece between two
      suspension points runs to completion, as the single-threaded event
      loop guarantees.  [stopSession] is cut once, after its synchronous
      prefix.  [executeTrade] is cut at the venue call; [settle] runs what
      follows, the transactional scope with [recordTrade] and
      [updateSessionStats], as one turn, with the faults of the store
      chosen by the environment.  [scope_resume] cuts the same scope at
      each of its [await]s, so that two scopes can overlap.
    - [TradingSessionManager.js] builds its feed with
      [new MarketDataStream(symbol)] without importing the class; the
      embedding takes the class of [MarketDataStream.js] to be in scope. *)

From Stdlib Require Import ZArith QArith Qpower Qminmax List String Bool Lia Lqa.
From Stdlib Require Floats.
Import ListNotations.

Open Scope Q_scope.

(* ================================================================== *)
(** ** JavaScript values *)

Module JS.

Inductive number : Type :=
| NaN
| Num (q : Q).

Inductive value : Type :=
| VUndefined
| VNull
| VBool (b : bool)
| VNum (n : number)
| VStr (s : string).

(** [typeof v === 'number'] *)
Definition typeof_number (v : value) : bool :=
  match v with
  | VNum _ => true
  | _ => false
  end.

(** ToBoolean *)
Definition truthy (v : value) : bool :=
  match v with
  | VUndefined | VNull => false
  | VBool b => b
  | VNum NaN => false
  | VNum (Num q) => negb (Qeq_bool q 0)
  | VStr EmptyString => false
  | VStr (String _ _) => true
  end.

(** [a || b] *)
Definition or (a b : value) : value := if truthy a then a else b.

(** [a <= b], [a < b], [a >= b], [a > b] on numbers *)
Definition le (a b : number) : bool :=
  match a, b with
  | Num x, Num y => Qle_bool x y
  | _, _ => false
  end.

Definition lt (a b : number) : bool :=
  match a, b with
  | Num x, Num y => negb (Qle_bool y x)
  | _, _ => false
  end.

Definition ge (a b : number) : bool := le b a.
Definition gt (a b : number) : bool := lt b a.

Definition add (a b : number) : number :=
  match a, b with
  | Num x, Num y => Num (x + y)
  | _, _ => NaN
  end.

Definition sub (a b : number) : number :=
  match a, b with
  | Num x, Num y => Num (x - y)
  | _, _ => NaN
  end.

Definition mul (a b : number) : number :=
  match a, b with
  | Num x, Num y => Num (x * y)
  | _, _ => NaN
  end.

(** unary minus *)
Definition neg (a : number) : number :=
  match a with
  | Num x => Num (- x)
  | NaN => NaN
  end.

(** [Math.pow(x, n)] for a counter [n]; [Math.pow(x, 0)] is [1] for every
    [x], [NaN] included. *)
Definition pow (x : number) (n : nat) : number :=
  match n with
  | O => Num 1
  | S _ =>
      match x with
      | Num q => Num (q ^ Z.of_nat n)
      | NaN => NaN
      end
  end.

Definition of_nat (n : nat) : number := Num (inject_Z (Z.of_nat n)).

(** The mathematical reading of the comparisons: a relation that holds
    between two rationals in the given order and never involves [NaN]. *)
Inductive Le : number -> number -> Prop :=
| Le_num (x y : Q) : x <= y -> Le (Num x) (Num y).

Inductive Lt : number -> number -> Prop :=
| Lt_num (x y : Q) : x < y -> Lt (Num x) (Num y).

End JS.

(* ================================================================== *)
(** ** The session document ([models/TradingSession.js]) *)

(** The values [status] takes.  The schema's enum lists the first three;
    [stopSession] writes the last two through [findByIdAndUpdate], which
    does not validate. *)
Inductive Status : Type :=
| active
| stopped
| completed
| stopped_auto
| stopped_user.

Definition Status_eqb (a b : Status) : bool :=
  match a, b with
  | active, active | stopped, stopped | completed, completed
  | stopped_auto, stopped_auto | stopped_user, stopped_user => true
  | _, _ => false
  end.

Record TradingSession : Type := mkSession {
  initial_balance : JS.number;
  final_balance : JS.number;
  total_trades : nat;
  winning_trades : nat;
  consecutive_losses : nat;
  status : Status;
  session_end : option Z
}.

(** The analysis object produced by [TradingEngine.analyze]; [amount] is the
    only field whose type the code inspects. *)
Record Analysis : Type := mkAnalysis {
  direction : string;
  amount : JS.value;
  duration : JS.number;
  confidence : JS.number
}.

(* ================================================================== *)
(** ** [services/RiskManager.js] *)

Module RiskManager.

(** [approveTrade(session, analysis)]; a missing argument is [None]. *)
Definition approveTrade (session : option TradingSession)
                        (analysis : option Analysis) : bool :=
  match session, analysis with
  | Some s, Some a =>
      match amount a with
      | JS.VNum n =>
          if JS.le n (JS.Num 0) then false
          else if JS.gt n (final_balance s) then false
          else true
      | _ => false
      end
  | _, _ => false
  end.

Inductive Advice : Type := Continue | Stop.

(** The two limits read from the configuration: absent ([None]) or a
    number. *)
Record LimitsConfig : Type := mkLimits {
  max_consecutive_losses : option JS.number;
  daily_loss_limit_percentage : option JS.number
}.

(** The argument of [checkSessionLimits], as [checkRiskLimits] builds it. *)
Record SessionState : Type := mkState {
  st_initial_balance : JS.number;
  st_final_balance : JS.number;
  st_consecutive_losses : nat;
  st_config : option LimitsConfig
}.

(** [if (limit && ...)]: the limit when it is truthy. *)
Definition configured (limit : option JS.number) : option JS.number :=
  match limit with
  | Some n => if JS.truthy (JS.VNum n) then Some n else None
  | None => None
  end.

Definition checkSessionLimits (st : option SessionState) : Advice :=
  match st with
  | None => Continue
  | Some s =>
      match st_config s with
      | None => Continue
      | Some config =>
          let losses_hit :=
            match configured (max_consecutive_losses config) with
            | Some limit => JS.ge (JS.of_nat (st_consecutive_losses s)) limit
            | None => false
            end in
          if losses_hit then Stop
          else
            match configured (daily_loss_limit_percentage config) with
            | Some pct =>
                let maxLossAllowed := JS.mul (st_initial_balance s) pct in
                let currentLoss :=
                  JS.sub (st_initial_balance s) (st_final_balance s) in
                if JS.ge currentLoss maxLossAllowed then Stop else Continue
            | None => Continue
            end
      end
  end.

End RiskManager.

(* ================================================================== *)
(** ** [services/TradingEngine.js] *)

Module TradingEngine.

(** [applyMartingaleStrategy(lastTradeFailed, currentConsecutiveLosses,
    baseStake, martingaleMultiplier = 2)]; the default parameter value
    applies when the argument is [undefined] ([None]). *)
Definition applyMartingaleStrategy (lastTradeFailed : bool)
    (currentConsecutiveLosses : nat) (baseStake : JS.value)
    (martingaleMultiplier : option JS.number) : JS.value :=
  let multiplier :=
    match martingaleMultiplier with
    | Some m => m
    | None => JS.Num 2
    end in
  match baseStake with
  | JS.VNum b =>
      if JS.le b (JS.Num 0) then JS.or baseStake (JS.VNum (JS.Num 1))
      else if lastTradeFailed
      then JS.VNum (JS.mul b (JS.pow multiplier currentConsecutiveLosses))
      else baseStake
  | _ => JS.or baseStake (JS.VNum (JS.Num 1))
  end.

End TradingEngine.

(* ================================================================== *)
(** ** [services/MarketDataStream.js] *)

Module MarketDataStream.

Record t : Type := mk {
  reconnectAttempts : nat;
  MAX_RECONNECTS : nat;
  RECONNECT_DELAY_BASE : JS.number;
  ticking : bool;            (* [tickIntervalId] is set *)
  isConnecting : bool;
  isConnected : bool
}.

(** What a method hands to the runtime: events for the listeners and
    timers for [setTimeout]. *)
Inductive Emitted : Type :=
| EmitOpen
| EmitClose (code : Z)
| EmitError.

Inductive Timer : Type :=
| ReconnectAfter (delay : JS.number)   (* [setTimeout(() => this.connect(), delay)] *)
| OpenAfter (delay : JS.number).       (* the simulated handshake of [connect] *)

Inductive Effect : Type :=
| Emit (e : Emitted)
| SetTimeout (tm : Timer).

Definition constructor : t :=
  {| reconnectAttempts := 0;
     MAX_RECONNECTS := 5;
     RECONNECT_DELAY_BASE := JS.Num 1000;
     ticking := false;
     isConnecting := false;
     isConnected := false |}.

Definition connect (s : t) : t * list Effect :=
  if isConnecting s || isConnected s then (s, [])
  else
    ({| reconnectAttempts := reconnectAttempts s;
        MAX_RECONNECTS := MAX_RECONNECTS s;
        RECONNECT_DELAY_BASE := RECONNECT_DELAY_BASE s;
        ticking := ticking s;
        isConnecting := true;
        isConnected := isConnected s |},
     [SetTimeout (OpenAfter (JS.Num 100))]).

Definition _onOpen (s : t) : t * list Effect :=
  ({| reconnectAttempts := 0;
      MAX_RECONNECTS := MAX_RECONNECTS s;
      RECONNECT_DELAY_BASE := RECONNECT_DELAY_BASE s;
      ticking := true;
      isConnecting := false;
      isConnected := true |},
   [Emit EmitOpen]).

(** The callback of the timer set by [connect]. *)
Definition connect_timeout (s : t) : t * list Effect :=
  if negb (isConnecting s) then (s, []) else _onOpen s.

(** The reconnect delay computed by [_onClose]; [random] is the value
    returned by [Math.random()]. *)
Definition reconnect_delay (s : t) (random : Q) : JS.number :=
  JS.add (JS.mul (JS.pow (JS.Num 2) (reconnectAttempts s))
                 (RECONNECT_DELAY_BASE s))
         (JS.mul (JS.Num random) (JS.Num 1000)).

Definition _onClose (s : t) (code : Z) (random : Q) : t * list Effect :=
  let closed attempts :=
    {| reconnectAttempts := attempts;
       MAX_RECONNECTS := MAX_RECONNECTS s;
       RECONNECT_DELAY_BASE := RECONNECT_DELAY_BASE s;
       ticking := false;
       isConnecting := false;
       isConnected := false |} in
  if (reconnectAttempts s <? MAX_RECONNECTS s)%nat
  then (closed (S (reconnectAttempts s)),
        [Emit (EmitClose code);
         SetTimeout (ReconnectAfter (reconnect_delay s random))])
  else (closed (reconnectAttempts s),
        [Emit (EmitClose code); Emit EmitError]).

Definition disconnect (s : t) : t * list Effect :=
  ({| reconnectAttempts := MAX_RECONNECTS s;
      MAX_RECONNECTS := MAX_RECONNECTS s;
      RECONNECT_DELAY_BASE := RECONNECT_DELAY_BASE s;
      ticking := false;
      isConnecting := false;
      isConnected := false |},
   [Emit (EmitClose 1000)]).

(** [k] unexpected closes in a row, none followed by a successful
    handshake; the effects of all of them, in order. *)
Fixpoint closes (k : nat) (s : t) (code : Z) (randoms : nat -> Q)
  : t * list Effect :=
  match k with
  | O => (s, [])
  | S k' =>
      let '(s1, out1) := closes k' s code randoms in
      let '(s2, out2) := _onClose s1 code (randoms k') in
      (s2, out1 ++ out2)
  end.

(** [_simulateClose(code, reason)] *)
Definition _simulateClose (s : t) (code : Z) (random : Q) : t * list Effect :=
  if negb (isConnected s) && negb (isConnecting s) then (s, [])
  else _onClose s code random.

(** [_onError(error)]: a WebSocket error.  When the stream is neither
    connected nor connecting it closes first (code 1006); the error is
    emitted in every case. *)
Definition _onError (s : t) (random : Q) : t * list Effect :=
  if negb (isConnected s) && negb (isConnecting s)
  then (fst (_onClose s 1006 random),
        snd (_onClose s 1006 random) ++ [Emit EmitError])
  else (s, [Emit EmitError]).

(** The calls a stream object can receive, from the socket, from its own
    timers and from its owner. *)
Inductive Op : Type :=
| OpConnect
| OpConnectTimeout
| OpClose (code : Z) (random : Q)
| OpSimulateClose (code : Z) (random : Q)
| OpError (random : Q)
| OpDisconnect.

Definition apply_op (o : Op) (s : t) : t * list Effect :=
  match o with
  | OpConnect => connect s
  | OpConnectTimeout => connect_timeout s
  | OpClose code random => _onClose s code random
  | OpSimulateClose code random => _simulateClose s code random
  | OpError random => _onError s random
  | OpDisconnect => disconnect s
  end.

Definition run_ops (ops : list Op) (s : t) : t :=
  fold_left (fun acc o => fst (apply_op o acc)) ops s.

End MarketDataStream.

(* ================================================================== *)
(** ** [services/TradingSessionManager.js]: data *)

Module TradingSessionManager.

Record Config : Type := mkConfig {
  initialBalance : JS.number;
  max_consecutive_losses : option JS.number;
  daily_loss_limit_percentage : option JS.number;
  baseStake : JS.value;
  martingaleEnabled : bool;
  martingaleMultiplier : option JS.number;
  max_concurrent_trades : option Z;
  tradeTimeout : JS.value
}.

Record Tick : Type := mkTick {
  quote : JS.number;
  epoch : Z
}.

(** An entry of [tradeQueue]. *)
Record Job : Type := mkJob {
  timestamp : Z;
  analysis : Analysis;
  tickData : Tick
}.

(** Argument and result of [derivAPI.executeTrade]. *)
Record TradeParams : Type := mkParams {
  tp_direction : string;
  tp_stake : JS.value;
  tp_duration : JS.number;
  tp_timeout : JS.value
}.

Record TradeResult : Type := mkResult {
  trade_id : string;
  contract_id : string;
  tr_status : string;
  result : string;
  payout : JS.number;
  stake : JS.number
}.

(** A document of the Trade collection, as [recordTrade] fills it. *)
Record Trade : Type := mkTrade {
  t_trade_id : JS.value;
  t_direction : string;
  t_stake : JS.value;
  t_payout : JS.number;
  t_result : JS.value;
  t_confidence_score : JS.number
}.

(** The fields of the manager object. *)
Record Manager : Type := mkManager {
  config : Config;
  session : option TradingSession;
  isActive : bool;
  tradeQueue : list Job;
  currentTrades : Z;
  MAX_CONCURRENT_TRADES : Z;
  lastTradeFailed : bool;
  marketDataStream : MarketDataStream.t
}.

(** Modelled from the spec: the persistence layer (Mongoose and MongoDB)
    is an external collaborator; section 6 of the specification gives its
    contract: insert, find-and-update with read-back, and a transactional
    scope whose commit is all-or-nothing and whose abort leaves the prior
    state untouched.  The store holds the session document of this
    manager and the Trade collection. *)
Record DB : Type := mkDB {
  session_doc : option TradingSession;
  trade_docs : list Trade
}.

(** A call of [executeTrade] launched by [processTradeQueue] whose
    [finally] callback has not run yet: it has already returned (guard or
    risk rejection), or it is suspended on the venue call. *)
Inductive Execution : Type :=
| Returned
| AwaitingVenue (params : TradeParams) (a : Analysis).

(** The manager together with the rest of the process: the store, the
    pending continuations of the event loop (launched executions, calls of
    [stopSession] suspended at an [await], timers of the feed) and whether
    the listeners set by [connectMarketData] are attached. *)
Record World : Type := mkWorld {
  mgr : Manager;
  db : DB;
  inFlight : list Execution;
  stopping : list string;
  timers : list MarketDataStream.Timer;
  listening : bool
}.

Inductive Error : Type :=
| DbError          (* an operation on the store threw *)
| CommitError      (* the commit of the transaction threw *)
| VenueError.      (* [derivAPI.executeTrade] threw *)

(** What the environment decides for one execution: the venue's answer
    and which operations of the store fail.  A flag stands for every way
    the operation can throw, the validation of the document against its
    schema included ([Trade.create] and [save] validate). *)
Inductive VenueOutcome : Type :=
| VenueReturns (tr : TradeResult)
| VenueThrows.

Record Faults : Type := mkFaults {
  fail_create : bool;     (* [Trade.create] *)
  fail_update : bool;     (* [TradingSession.findByIdAndUpdate] *)
  fail_save : bool;       (* [updatedSession.save] *)
  fail_commit : bool      (* the commit at the end of [withTransaction] *)
}.

Definition no_faults : Faults := mkFaults false false false false.

(** *** Field updates *)

Definition set_session (v : option TradingSession) (m : Manager) : Manager :=
  mkManager (config m) v (isActive m) (tradeQueue m) (currentTrades m)
            (MAX_CONCURRENT_TRADES m) (lastTradeFailed m) (marketDataStream m).

Definition set_isActive (v : bool) (m : Manager) : Manager :=
  mkManager (config m) (session m) v (tradeQueue m) (currentTrades m)
            (MAX_CONCURRENT_TRADES m) (lastTradeFailed m) (marketDataStream m).

Definition set_tradeQueue (v : list Job) (m : Manager) : Manager :=
  mkManager (config m) (session m) (isActive m) v (currentTrades m)
            (MAX_CONCURRENT_TRADES m) (lastTradeFailed m) (marketDataStream m).

Definition set_currentTrades (v : Z) (m : Manager) : Manager :=
  mkManager (config m) (session m) (isActive m) (tradeQueue m) v
            (MAX_CONCURRENT_TRADES m) (lastTradeFailed m) (marketDataStream m).

Definition set_lastTradeFailed (v : bool) (m : Manager) : Manager :=
  mkManager (config m) (session m) (isActive m) (tradeQueue m) (currentTrades m)
            (MAX_CONCURRENT_TRADES m) v (marketDataStream m).

Definition set_marketDataStream (v : MarketDataStream.t) (m : Manager) : Manager :=
  mkManager (config m) (session m) (isActive m) (tradeQueue m) (currentTrades m)
            (MAX_CONCURRENT_TRADES m) (lastTradeFailed m) v.

Definition with_mgr (f : Manager -> Manager) (w : World) : World :=
  mkWorld (f (mgr w)) (db w) (inFlight w) (stopping w) (timers w) (listening w).

Definition set_db (v : DB) (w : World) : World :=
  mkWorld (mgr w) v (inFlight w) (stopping w) (timers w) (listening w).

Definition set_inFlight (v : list Execution) (w : World) : World :=
  mkWorld (mgr w) (db w) v (stopping w) (timers w) (listening w).

Definition set_stopping (v : list string) (w : World) : World :=
  mkWorld (mgr w) (db w) (inFlight w) v (timers w) (listening w).

Definition set_timers (v : list MarketDataStream.Timer) (w : World) : World :=
  mkWorld (mgr w) (db w) (inFlight w) (stopping w) v (listening w).

Definition set_listening (v : bool) (w : World) : World :=
  mkWorld (mgr w) (db w) (inFlight w) (stopping w) (timers w) v.

Definition set_session_doc (v : option TradingSession) (d : DB) : DB :=
  mkDB v (trade_docs d).

(** Removal of the [i]-th pending continuation. *)
Fixpoint remove_nth {A : Type} (i : nat) (l : list A) : list A :=
  match l, i with
  | [], _ => []
  | _ :: rest, O => rest
  | x :: rest, S i' => x :: remove_nth i' rest
  end.

(* ---------------------------------------------------------------- *)
(** ** [services/TradingSessionManager.js]: operations *)

Local Open Scope string_scope.

(** [constructor(userId, config, ...)] *)
Definition constructor (cfg : Config) (feed : MarketDataStream.t) : Manager :=
  {| config := cfg;
     session := None;
     isActive := false;
     tradeQueue := [];
     currentTrades := 0%Z;
     MAX_CONCURRENT_TRADES :=
       match max_concurrent_trades cfg with
       | Some n => if (n =? 0)%Z then 5%Z else n
       | None => 5%Z
       end;
     lastTradeFailed := false;
     marketDataStream := feed |}.

(** [this.session?.status !== 'active'] *)
Definition status_not_active (m : Manager) : bool :=
  match session m with
  | Some s => negb (Status_eqb (status s) active)
  | None => true
  end.

(** [stopSession(reason)] up to its first [await]: the guard, the flag
    flip and the clearing of the queue.  The rest of the call is left
    suspended in [stopping]. *)
Definition stopSession (reason : string) (w : World) : World :=
  if negb (isActive (mgr w)) && status_not_active (mgr w) then w
  else
    let w1 := with_mgr (fun m => set_tradeQueue [] (set_isActive false m)) w in
    set_stopping (stopping w1 ++ [reason]) w1.

(** The terminal status chosen from the reason. *)
Definition finalStatus (reason : string) : Status :=
  if (reason =? "risk_limit_breach") || (reason =? "market_data_error")
     || (reason =? "emergency_system_shutdown")
  then stopped_auto
  else if reason =? "user_request" then stopped_user
  else completed.

(** The remainder of [stopSession(reason)], run when the waits are over:
    disconnect the feed and drop the listeners, stop the engine, write
    the final record with [new Date() = now], take the returned document
    as the new handle; [finally] clears [isActive] again.  A throwing
    update is caught and logged. *)
Definition stopSession_resume (reason : string) (now : Z)
    (update_throws : bool) (w : World) : World :=
  let w1 :=
    with_mgr (fun m =>
      set_marketDataStream
        (fst (MarketDataStream.disconnect (marketDataStream m))) m) w in
  let w2 := set_listening false w1 in
  let w3 :=
    match session (mgr w2) with
    | Some s =>
        let finalBalance := final_balance s in
        if update_throws then w2
        else
          match session_doc (db w2) with
          | Some d =>
              let updatedSession :=
                {| initial_balance := initial_balance d;
                   final_balance := finalBalance;
                   total_trades := total_trades d;
                   winning_trades := winning_trades d;
                   consecutive_losses := consecutive_losses d;
                   status := finalStatus reason;
                   session_end := Some now |} in
              with_mgr (set_session (Some updatedSession))
                (set_db (set_session_doc (Some updatedSession) (db w2)) w2)
          | None => w2
          end
    | None => w2
    end in
  with_mgr (set_isActive false) w3.

(** [executeTrade(analysis)] up to its first [await]. *)
Definition executeTrade_begin (m : Manager) (a : Analysis) : Execution :=
  match isActive m, session m with
  | true, Some s =>
      let currentStake :=
        if martingaleEnabled (config m)
        then TradingEngine.applyMartingaleStrategy
               (lastTradeFailed m) (consecutive_losses s)
               (baseStake (config m)) (martingaleMultiplier (config m))
        else amount a in
      if negb (RiskManager.approveTrade (session m) (Some a)) then Returned
      else
        AwaitingVenue
          {| tp_direction := direction a;
             tp_stake := currentStake;
             tp_duration := duration a;
             tp_timeout := JS.or (tradeTimeout (config m))
                                 (JS.VNum (JS.Num 2500)) |}
          a
  | _, _ => Returned
  end.

(** One iteration of the loop of [processTradeQueue]: [job] has been
    taken from the head of the queue, [rest] remains. *)
Definition launch (job : Job) (rest : list Job) (w : World) : World :=
  let w1 :=
    with_mgr (fun m =>
      set_currentTrades (currentTrades m + 1)%Z (set_tradeQueue rest m)) w in
  set_inFlight (inFlight w1 ++ [executeTrade_begin (mgr w1) (analysis job)]) w1.

(** [while (tradeQueue.length > 0 && currentTrades < MAX_CONCURRENT_TRADES)] *)
Fixpoint dispatch (queue : list Job) (w : World) : World :=
  match queue with
  | [] => w
  | job :: rest =>
      if (currentTrades (mgr w) <? MAX_CONCURRENT_TRADES (mgr w))%Z
      then dispatch rest (launch job rest w)
      else w
  end.

Definition processTradeQueue (w : World) : World :=
  dispatch (tradeQueue (mgr w)) w.

(** [handleTick(tickData)]; [a] is what [tradingEngine.analyze] returns
    and [now] the value of [Date.now()]. *)
Definition handleTick (tick : Tick) (a : option Analysis) (now : Z)
    (w : World) : World :=
  match isActive (mgr w), session (mgr w) with
  | true, Some _ =>
      match a with
      | Some an =>
          processTradeQueue
            (with_mgr (fun m =>
               set_tradeQueue (tradeQueue m ++ [mkJob now an tick]) m) w)
      | None => w
      end
  | _, _ => w
  end.

(** [checkRiskLimits()] *)
Definition checkRiskLimits (w : World) : World :=
  match isActive (mgr w), session (mgr w) with
  | true, Some s =>
      let sessionStateForRiskCheck :=
        {| RiskManager.st_initial_balance := initial_balance s;
           RiskManager.st_final_balance := final_balance s;
           RiskManager.st_consecutive_losses := consecutive_losses s;
           RiskManager.st_config :=
             Some {| RiskManager.max_consecutive_losses :=
                       max_consecutive_losses (config (mgr w));
                     RiskManager.daily_loss_limit_percentage :=
                       daily_loss_limit_percentage (config (mgr w)) |} |} in
      match RiskManager.checkSessionLimits (Some sessionStateForRiskCheck) with
      | RiskManager.Stop => stopSession "risk_limit_breach" w
      | RiskManager.Continue => w
      end
  | _, _ => w
  end.

(** [recordTrade(tradeResult, analysis, mongoDbClientSession)] *)
Definition recordTrade (tr : TradeResult) (a : Analysis) (f : Faults)
    (w : World) : option Error * World :=
  match session (mgr w) with
  | None => (None, w)
  | Some _ =>
      let tradeData :=
        {| t_trade_id := JS.or (JS.VStr (trade_id tr)) (JS.VStr (contract_id tr));
           t_direction := direction a;
           t_stake := JS.or (JS.VNum (stake tr)) (amount a);
           t_payout := payout tr;
           t_result := JS.or (JS.VStr (result tr)) (JS.VStr (tr_status tr));
           t_confidence_score := confidence a |} in
      if fail_create f then (Some DbError, w)
      else (None, set_db (mkDB (session_doc (db w))
                               (trade_docs (db w) ++ [tradeData])) w)
  end.

(** [const profitOrLoss = ...] *)
Definition profitOrLoss (tr : TradeResult) : JS.number :=
  if result tr =? "win" then JS.sub (payout tr) (stake tr)
  else JS.neg (stake tr).

(** The update document built by [updateSessionStats], applied to the
    stored document [d]: [$inc] on the two counters and, for a win or a
    loss, [$set] on [consecutive_losses], computed from the in-memory
    handle [s]. *)
Definition apply_updates (tr : TradeResult) (s d : TradingSession)
  : TradingSession :=
  {| initial_balance := initial_balance d;
     final_balance := final_balance d;
     total_trades := total_trades d + 1;
     winning_trades :=
       winning_trades d + (if result tr =? "win" then 1 else 0);
     consecutive_losses :=
       if result tr =? "win" then 0%nat
       else if result tr =? "loss" then (consecutive_losses s + 1)%nat
       else consecutive_losses d;
     status := status d;
     session_end := session_end d |}.

Definition set_final_balance (v : JS.number) (d : TradingSession)
  : TradingSession :=
  {| initial_balance := initial_balance d;
     final_balance := v;
     total_trades := total_trades d;
     winning_trades := winning_trades d;
     consecutive_losses := consecutive_losses d;
     status := status d;
     session_end := session_end d |}.

(** [updateSessionStats(tradeResult, mongoDbClientSession)] *)
Definition updateSessionStats (tr : TradeResult) (f : Faults) (w : World)
  : option Error * World :=
  match session (mgr w) with
  | None => (None, w)
  | Some s =>
      if fail_update f then (Some DbError, w)
      else
        match session_doc (db w) with
        | None => (None, w)
        | Some d =>
            let found := apply_updates tr s d in
            let w1 := set_db (set_session_doc (Some found) (db w)) w in
            let updatedSession :=
              set_final_balance
                (JS.add (final_balance found) (profitOrLoss tr)) found in
            if fail_save f then (Some DbError, w1)
            else
              let w2 :=
                with_mgr (set_session (Some updatedSession))
                  (set_db (set_session_doc (Some updatedSession) (db w1)) w1) in
              let w3 := checkRiskLimits w2 in
              (None,
               with_mgr (set_lastTradeFailed
                           (JS.le (profitOrLoss tr) (JS.Num 0))) w3)
        end
  end.

(** Modelled from the spec: [withTransaction] of the persistence layer
    (section 6: a transactional scope that groups several writes; commit
    is all-or-nothing, abort leaves the prior state untouched).  The body
    works on the store; when it throws, or when the commit throws, the
    store is put back and the error is rethrown.  What the body did to
    the objects in memory stays. *)
Definition withTransaction (body : World -> option Error * World)
    (commit_throws : bool) (w : World) : option Error * World :=
  match body w with
  | (Some e, w1) => (Some e, set_db (db w) w1)
  | (None, w1) =>
      if commit_throws then (Some CommitError, set_db (db w) w1)
      else (None, w1)
  end.

(** The transactional scope of [executeTrade]: [recordTrade], then
    [updateSessionStats]. *)
Definition recordOutcome (tr : TradeResult) (a : Analysis) (f : Faults)
    (w : World) : option Error * World :=
  withTransaction
    (fun w0 =>
       match recordTrade tr a f w0 with
       | (Some e, w1) => (Some e, w1)
       | (None, w1) => updateSessionStats tr f w1
       end)
    (fail_commit f) w.

(** [executeTrade] from the answer of the venue to its end. *)
Definition executeTrade_resume (e : Execution) (venue : VenueOutcome)
    (f : Faults) (w : World) : option Error * World :=
  match e with
  | Returned => (None, w)
  | AwaitingVenue _ a =>
      match venue with
      | VenueThrows => (Some VenueError, w)
      | VenueReturns tr => recordOutcome tr a f w
      end
  end.

(** The [finally] callback attached by [processTradeQueue]. *)
Definition job_finally (w : World) : World :=
  let w1 := with_mgr (fun m => set_currentTrades (currentTrades m - 1)%Z m) w in
  match tradeQueue (mgr w1) with
  | _ :: _ =>
      if (currentTrades (mgr w1) <? MAX_CONCURRENT_TRADES (mgr w1))%Z
      then processTradeQueue w1
      else w1
  | [] => w1
  end.

(** The document created by [startSession]. *)
Definition new_session (cfg : Config) : TradingSession :=
  {| initial_balance := initialBalance cfg;
     final_balance := initialBalance cfg;
     total_trades := 0;
     winning_trades := 0;
     consecutive_losses := 0;
     status := active;
     session_end := None |}.

(** What the manager does with an effect of its feed: the listener on
    ['error'] stops the session; timers are handed to the runtime; the
    other events have no listener in the manager. *)
Definition deliver (eff : MarketDataStream.Effect) (w : World) : World :=
  match eff with
  | MarketDataStream.Emit MarketDataStream.EmitError =>
      if listening w then stopSession "market_data_error" w else w
  | MarketDataStream.Emit _ => w
  | MarketDataStream.SetTimeout tm => set_timers (timers w ++ [tm]) w
  end.

Definition deliver_all (effs : list MarketDataStream.Effect) (w : World)
  : World :=
  fold_left (fun acc eff => deliver eff acc) effs w.

(** A method of the feed run on the manager's stream object. *)
Definition on_feed
    (method : MarketDataStream.t -> MarketDataStream.t * list MarketDataStream.Effect)
    (w : World) : World :=
  let '(feed, effs) := method (marketDataStream (mgr w)) in
  deliver_all effs (with_mgr (set_marketDataStream feed) w).

(** [connectMarketData(symbol)]: a fresh stream, the three listeners,
    [connect()]. *)
Definition connectMarketData (w : World) : World :=
  let w1 :=
    set_timers []
      (set_listening true
         (with_mgr (set_marketDataStream MarketDataStream.constructor) w)) in
  on_feed MarketDataStream.connect w1.

(** [startSession()]; [tx_throws] tells whether saving the new document
    fails. *)
Definition startSession (tx_throws : bool) (w : World) : World :=
  if isActive (mgr w) then w
  else
    let doc := new_session (config (mgr w)) in
    let w1 := with_mgr (set_session (Some doc)) w in
    if tx_throws then with_mgr (set_isActive false) w1
    else
      let w2 := set_db (set_session_doc (Some doc) (db w1)) w1 in
      with_mgr (set_isActive true) (connectMarketData w2).

(* ---------------------------------------------------------------- *)
(** ** The event loop *)

(** One turn of the event loop: a call from outside, an event of the
    feed, or the resumption of a suspended continuation chosen by the
    scheduler. *)
Inductive Event : Type :=
| Start (tx_throws : bool)
| FeedTick (tick : Tick) (a : option Analysis) (now : Z)
| FeedClose (code : Z) (random : Q)
| TimerFires (i : nat)
| Settle (i : nat) (venue : VenueOutcome) (f : Faults)
| Stop (reason : string)
| StopResumes (i : nat) (now : Z) (update_throws : bool).

Definition settle (e : Execution) (venue : VenueOutcome) (f : Faults)
    (w : World) : World :=
  job_finally (snd (executeTrade_resume e venue f w)).

Definition step (ev : Event) (w : World) : World :=
  match ev with
  | Start tx_throws => startSession tx_throws w
  | FeedTick tick a now =>
      if listening w && isActive (mgr w) then handleTick tick a now w else w
  | FeedClose code random =>
      on_feed (fun s => MarketDataStream._onClose s code random) w
  | TimerFires i =>
      match nth_error (timers w) i with
      | Some (MarketDataStream.ReconnectAfter _) =>
          on_feed MarketDataStream.connect
                  (set_timers (remove_nth i (timers w)) w)
      | Some (MarketDataStream.OpenAfter _) =>
          on_feed MarketDataStream.connect_timeout
                  (set_timers (remove_nth i (timers w)) w)
      | None => w
      end
  | Settle i venue f =>
      match nth_error (inFlight w) i with
      | Some e => settle e venue f (set_inFlight (remove_nth i (inFlight w)) w)
      | None => w
      end
  | Stop reason => stopSession reason w
  | StopResumes i now update_throws =>
      match nth_error (stopping w) i with
      | Some reason =>
          stopSession_resume reason now update_throws
            (set_stopping (remove_nth i (stopping w)) w)
      | None => w
      end
  end.

Definition run (evs : list Event) (w : World) : World :=
  fold_left (fun acc ev => step ev acc) evs w.

(** The process right after [new TradingSessionManager(...)]. *)
Definition boot (cfg : Config) (feed : MarketDataStream.t) (store : DB)
  : World :=
  {| mgr := constructor cfg feed;
     db := store;
     inFlight := [];
     stopping := [];
     timers := [];
     listening := false |}.

(** *** Instants inside a turn

    The in-flight counter changes inside a turn: once per iteration of
    the loop of [processTradeQueue] and once in the [finally] callback.
    [dispatch_trace] lists the world after each iteration of the loop;
    [instants] lists every world a turn goes through, the last one being
    the world the turn ends in. *)
Fixpoint dispatch_trace (queue : list Job) (w : World) : list World :=
  match queue with
  | [] => []
  | job :: rest =>
      if (currentTrades (mgr w) <? MAX_CONCURRENT_TRADES (mgr w))%Z
      then launch job rest w :: dispatch_trace rest (launch job rest w)
      else []
  end.

Definition instants (ev : Event) (w : World) : list World :=
  match ev with
  | FeedTick tick (Some an) now =>
      match listening w && isActive (mgr w), session (mgr w) with
      | true, Some _ =>
          let w1 :=
            with_mgr (fun m =>
              set_tradeQueue (tradeQueue m ++ [mkJob now an tick]) m) w in
          w1 :: dispatch_trace (tradeQueue (mgr w1)) w1
      | _, _ => []
      end
  | Settle i venue f =>
      match nth_error (inFlight w) i with
      | Some e =>
          let w1 :=
            snd (executeTrade_resume e venue f
                   (set_inFlight (remove_nth i (inFlight w)) w)) in
          let w2 :=
            with_mgr (fun m => set_currentTrades (currentTrades m - 1)%Z m) w1 in
          w1 :: w2 :: dispatch_trace (tradeQueue (mgr w2)) w2
      | None => []
      end
  | _ => []
  end ++ [step ev w].

Fixpoint run_instants (evs : list Event) (w : World) : list World :=
  match evs with
  | [] => []
  | ev :: rest => instants ev w ++ run_instants rest (step ev w)
  end.

(* ---------------------------------------------------------------- *)
(** ** The transactional scope, [await] by [await]

    After the venue has answered, [executeTrade] suspends at
    [mongoose.startSession()] (line 445), at [Trade.create] (line 380, in
    [recordTrade]), at [findByIdAndUpdate] (line 493) and at [save]
    (line 514), both in [updateSessionStats], and at the commit that ends
    [withTransaction] (line 449).  Other continuations run in between. *)

(** The update document of [updateSessionStats] (lines 476-488). *)
Record Updates : Type := mkUpdates {
  inc_total_trades : nat;
  inc_winning_trades : nat;
  set_consecutive_losses : option nat
}.

(** Lines 476-488: the document is built from the trade result and from
    the in-memory handle [s]. *)
Definition build_updates (tr : TradeResult) (s : TradingSession) : Updates :=
  {| inc_total_trades := 1;
     inc_winning_trades := if result tr =? "win" then 1 else 0;
     set_consecutive_losses :=
       if result tr =? "win" then Some 0%nat
       else if result tr =? "loss" then Some (consecutive_losses s + 1)%nat
       else None |}.

(** Modelled from the spec: find-and-update with read-back (section 6),
    here [findByIdAndUpdate(id, updates, { new: true })] applied to the
    stored document [d]. *)
Definition findByIdAndUpdate (u : Updates) (d : TradingSession)
  : TradingSession :=
  {| initial_balance := initial_balance d;
     final_balance := final_balance d;
     total_trades := total_trades d + inc_total_trades u;
     winning_trades := winning_trades d + inc_winning_trades u;
     consecutive_losses :=
       match set_consecutive_losses u with
       | Some n => n
       | None => consecutive_losses d
       end;
     status := status d;
     session_end := session_end d |}.

(** The object [tradeData] of [recordTrade] (lines 350-375). *)
Definition tradeData (tr : TradeResult) (a : Analysis) : Trade :=
  {| t_trade_id := JS.or (JS.VStr (trade_id tr)) (JS.VStr (contract_id tr));
     t_direction := direction a;
     t_stake := JS.or (JS.VNum (stake tr)) (amount a);
     t_payout := payout tr;
     t_result := JS.or (JS.VStr (result tr)) (JS.VStr (tr_status tr));
     t_confidence_score := confidence a |}.

(** A scope suspended at one of its [await]s, with what it holds: the
    trade result, the documents it has inserted and written so far (they
    reach the store at the commit), and the values it has computed. *)
Inductive Scope : Type :=
| AtStartSession (tr : TradeResult) (a : Analysis)
| AtCreate (tr : TradeResult) (data : Trade)
| AtUpdate (tr : TradeResult) (inserted : list Trade) (updates : Updates)
| AtSave (tr : TradeResult) (inserted : list Trade)
         (updatedSession : TradingSession)
| AtCommit (inserted : list Trade) (written : option TradingSession).

(** Modelled from the spec: the store answers each request from the
    documents committed so far, and the writes of a scope reach it
    together at the commit (section 6: all-or-nothing).  No operation
    fails here; failures are the subject of [recordOutcome].

    One piece of the scope, from the [await] it is suspended at to the
    next one.  [None] tells that [executeTrade] has returned; its
    [finally] callback has run. *)
Definition scope_resume (c : Scope) (w : World) : option Scope * World :=
  match c with
  | AtStartSession tr a =>
      (* the callback starts; [recordTrade] up to [Trade.create] *)
      match session (mgr w) with
      | None => (Some (AtCommit [] None), w)
      | Some _ => (Some (AtCreate tr (tradeData tr a)), w)
      end
  | AtCreate tr data =>
      (* [recordTrade] returns; [updateSessionStats] up to line 493 *)
      match session (mgr w) with
      | None => (Some (AtCommit [data] None), w)
      | Some s => (Some (AtUpdate tr [data] (build_updates tr s)), w)
      end
  | AtUpdate tr inserted updates =>
      (* lines 499-514 *)
      match session_doc (db w) with
      | None => (Some (AtCommit inserted None), w)
      | Some d =>
          let found := findByIdAndUpdate updates d in
          (Some (AtSave tr inserted
                   (set_final_balance
                      (JS.add (final_balance found) (profitOrLoss tr)) found)),
           w)
      end
  | AtSave tr inserted updatedSession =>
      (* lines 519-529, then the callback returns *)
      let w2 := with_mgr (set_session (Some updatedSession)) w in
      let w3 := checkRiskLimits w2 in
      (Some (AtCommit inserted (Some updatedSession)),
       with_mgr (set_lastTradeFailed (JS.le (profitOrLoss tr) (JS.Num 0))) w3)
  | AtCommit inserted written =>
      let store :=
        {| session_doc :=
             match written with
             | Some u => Some u
             | None => session_doc (db w)
             end;
           trade_docs := (trade_docs (db w) ++ inserted)%list |} in
      (None, job_finally (set_db store w))
  end.





(** A scope run from the answer of the venue to its end with nothing in
    between: at most [n] pieces. *)
Fixpoint scope_run (n : nat) (c : Scope) (w : World) : World :=
  match n with
  | O => w
  | S k =>
      match scope_resume c w with
      | (Some c', w') => scope_run k c' w'
      | (None, w') => w'
      end
  end.

End TradingSessionManager.

(* ================================================================== *)
(** ** Binary64 arithmetic

    The functions whose result is a product, a power, a sum or a
    difference, on IEEE 754 binary64 numbers: [*], [+], [-] and the
    comparisons are the operations of the processor. *)

Module Double.

Import PrimFloat.
#[local] Set Warnings "-inexact-float".
Local Open Scope float_scope.

Inductive value : Type :=
| VUndefined
| VNull
| VBool (b : bool)
| VNum (x : float)
| VStr (s : string).

(** ToBoolean of a number: [false] for [+0], [-0] and [NaN]. *)
Definition truthy_number (x : float) : bool := negb ((x =? 0) || is_nan x).

Definition truthy (v : value) : bool :=
  match v with
  | VUndefined | VNull => false
  | VBool b => b
  | VNum x => truthy_number x
  | VStr EmptyString => false
  | VStr (String _ _) => true
  end.

(** [a || b] *)
Definition or (a b : value) : value := if truthy a then a else b.

(** The real number a finite binary64 number stands for. *)
Definition real (x : float) : option Q :=
  match FloatOps.Prim2SF x with
  | SpecFloat.S754_zero _ => Some 0%Q
  | SpecFloat.S754_finite s m e =>
      Some ((if s then - inject_Z (Z.pos m) else inject_Z (Z.pos m)) * 2 ^ e)%Q
  | _ => None
  end.

(** *** [services/TradingEngine.js] *)

Section Engine.

(** ECMAScript leaves [Math.pow] implementation-approximated.  [approx]
    stands for what the engine returns for the exponents from 2 on. *)
Variable approx : float -> nat -> float.

(** [Math.pow(x, n)] for a counter [n]: 1 for the exponent 0, [x] itself
    for the exponent 1. *)
Definition Math_pow (x : float) (n : nat) : float :=
  match n with
  | O => 1
  | S O => x
  | _ => approx x n
  end.

(** [applyMartingaleStrategy(lastTradeFailed, currentConsecutiveLosses,
    baseStake, martingaleMultiplier = 2)] *)
Definition applyMartingaleStrategy (lastTradeFailed : bool)
    (currentConsecutiveLosses : nat) (baseStake : value)
    (martingaleMultiplier : option float) : value :=
  let multiplier :=
    match martingaleMultiplier with
    | Some m => m
    | None => 2
    end in
  match baseStake with
  | VNum b =>
      if b <=? 0 then or baseStake (VNum 1)
      else if lastTradeFailed
      then VNum (b * Math_pow multiplier currentConsecutiveLosses)
      else baseStake
  | _ => or baseStake (VNum 1)
  end.

End Engine.

(** An engine for the closed examples: powers by repeated
    multiplication. *)
Fixpoint pow_by_multiplication (x : float) (n : nat) : float :=
  match n with
  | O => 1
  | S k => pow_by_multiplication x k * x
  end.

(** *** [services/RiskManager.js] *)

Record LimitsConfig : Type := mkLimits {
  max_consecutive_losses : option float;
  daily_loss_limit_percentage : option float
}.

Record SessionState : Type := mkState {
  st_initial_balance : float;
  st_final_balance : float;
  st_consecutive_losses : float;
  st_config : option LimitsConfig
}.

(** [if (limit && ...)]: the limit when it is truthy. *)
Definition configured (limit : option float) : option float :=
  match limit with
  | Some n => if truthy_number n then Some n else None
  | None => None
  end.

Definition checkSessionLimits (st : option SessionState)
  : RiskManager.Advice :=
  match st with
  | None => RiskManager.Continue
  | Some s =>
      match st_config s with
      | None => RiskManager.Continue
      | Some config =>
          let losses_hit :=
            match configured (max_consecutive_losses config) with
            | Some limit => limit <=? st_consecutive_losses s
            | None => false
            end in
          if losses_hit then RiskManager.Stop
          else
            match configured (daily_loss_limit_percentage config) with
            | Some pct =>
                let maxLossAllowed := st_initial_balance s * pct in
                let currentLoss :=
                  st_initial_balance s - st_final_balance s in
                if maxLossAllowed <=? currentLoss
                then RiskManager.Stop else RiskManager.Continue
            | None => RiskManager.Continue
            end
      end
  end.

(** *** [services/TradingSessionManager.js] *)

(** Line 474: [const profitOrLoss = ...] *)
Definition profitOrLoss (result : string) (payout stake : float) : float :=
  if (result =? "win")%string then payout - stake else - stake.

(** Line 512: [updatedSession.final_balance += profitOrLoss] *)
Definition final_balance_after (final_balance : float) (result : string)
    (payout stake : float) : float :=
  final_balance + profitOrLoss result payout stake.

End Double.

(* ================================================================== *)
(** * Notions used in the statements *)

Import JS.
Import TradingSessionManager.

(** A session document and an analysis used in the closed examples. *)
Definition session0 : TradingSession :=
  {| initial_balance := Num 10000;
     final_balance := Num 10000;
     total_trades := 0;
     winning_trades := 0;
     consecutive_losses := 0;
     status := active;
     session_end := None |}.

Definition analysis0 : Analysis :=
  {| direction := "call"%string;
     amount := VNum (Num 10);
     duration := Num 60;
     confidence := Num 0.5 |}.

Definition config0 : Config :=
  {| initialBalance := Num 10000;
     max_consecutive_losses := Some (Num 3);
     daily_loss_limit_percentage := Some (Num 0.1);
     baseStake := VNum (Num 10);
     martingaleEnabled := true;
     martingaleMultiplier := Some (Num 2);
     max_concurrent_trades := Some 3%Z;
     tradeTimeout := VNum (Num 3000) |}.

Definition set_baseStake (v : value) (c : Config) : Config :=
  mkConfig (initialBalance c) (max_consecutive_losses c)
           (daily_loss_limit_percentage c) v (martingaleEnabled c)
           (martingaleMultiplier c) (max_concurrent_trades c) (tradeTimeout c).

(** The manager of a started session. *)
Definition started (c : Config) : World :=
  step (Start false)
       (boot c MarketDataStream.constructor (mkDB None [])).

(** The condition of the guard of [applyMartingaleStrategy]:
    [typeof baseStake !== 'number' || baseStake <= 0]. *)
Definition invalid_baseStake (b : value) : Prop :=
  typeof_number b = false \/ exists q, b = VNum (Num q) /\ q <= 0.

(** The evaluation as the specification words it: stop when
    [consecutive_losses >= maxConsecutiveLosses] or when
    [initial_balance - live_balance >= initial_balance * dailyLossFraction]. *)
Definition spec_evaluateSessionLimits (initial live : number) (losses : nat)
    (maxConsecutiveLosses dailyLossFraction : number) : RiskManager.Advice :=
  if ge (of_nat losses) maxConsecutiveLosses
     || ge (sub initial live) (mul initial dailyLossFraction)
  then RiskManager.Stop
  else RiskManager.Continue.

(** The condition under which the code stops, on rationals. *)
Definition stop_condition (initial final : number) (losses : nat)
    (c : RiskManager.LimitsConfig) : Prop :=
  (exists q, RiskManager.max_consecutive_losses c = Some (Num q)
             /\ ~ q == 0 /\ q <= inject_Z (Z.of_nat losses))
  \/ (exists p i f,
        RiskManager.daily_loss_limit_percentage c = Some (Num p)
        /\ ~ p == 0 /\ initial = Num i /\ final = Num f
        /\ i * p <= i - f).

(** [w'] has the same configured maximum, the same in-flight counter and
    the same pending executions as [w]. *)
Definition same_sched (w w' : World) : Prop :=
  MAX_CONCURRENT_TRADES (mgr w') = MAX_CONCURRENT_TRADES (mgr w)
  /\ currentTrades (mgr w') = currentTrades (mgr w)
  /\ inFlight w' = inFlight w.

(** The counter counts the pending executions and is within the maximum
    [M]. *)
Definition Inv (M : Z) (w : World) : Prop :=
  MAX_CONCURRENT_TRADES (mgr w) = M
  /\ currentTrades (mgr w) = Z.of_nat (List.length (inFlight w))
  /\ (currentTrades (mgr w) <= M)%Z.

Definition within (M : Z) (w : World) : Prop :=
  MAX_CONCURRENT_TRADES (mgr w) = M /\ (currentTrades (mgr w) <= M)%Z.

(** [w'] has the same session handle and the same store as [w]. *)
Definition same_session (w w' : World) : Prop :=
  session (mgr w') = session (mgr w) /\ db w' = db w.


Definition loss_result : TradeResult :=
  mkResult "t1" "c1" "executed" "loss" (Num 0) (Num 10).

Definition win_result : TradeResult :=
  mkResult "t2" "c2" "executed" "win" (Num 19) (Num 10).

Definition one_tick : list Event :=
  [FeedTick (mkTick (Num 100) 1) (Some analysis0) 1].



(** The values the session schema admits for [status]
    ([enum: ['active', 'stopped', 'completed']]); [save] validates the
    document against the schema. *)
Definition schema_status (st : Status) : bool :=
  match st with
  | active | stopped | completed => true
  | stopped_auto | stopped_user => false
  end.


(** The reconnect delay as the specification words it:
    [min(2^attempt * baseDelay, cap) + jitter]. *)
Definition spec_reconnect_delay (attempt : nat) (baseDelay cap jitter : Q)
  : Q :=
  Qmin (2 ^ Z.of_nat attempt * baseDelay) cap + jitter.


(** *** Notions for the further properties *)

(** The execution is suspended on the venue call. *)
Definition awaiting (e : Execution) : bool :=
  match e with
  | AwaitingVenue _ _ => true
  | Returned => false
  end.

Definition count_awaiting (l : list Execution) : nat :=
  List.length (filter awaiting l).

Definition is_start (ev : Event) : bool :=
  match ev with
  | Start _ => true
  | _ => false
  end.

(** A turn in which neither the saving of a new session nor the commit of
    a settlement fails. *)
Definition commits (ev : Event) : bool :=
  match ev with
  | Start tx_throws => negb tx_throws
  | Settle _ _ f => negb (fail_commit f)
  | _ => true
  end.

(** The number of jobs one call of [processTradeQueue] launches. *)
Definition free_slots (w : World) : nat :=
  Z.to_nat (Z.min (Z.of_nat (List.length (tradeQueue (mgr w))))
                  (MAX_CONCURRENT_TRADES (mgr w) - currentTrades (mgr w))).

(** Successive fault-free calls of [updateSessionStats]. *)
Definition settle_all (trs : list TradeResult) (w : World) : World :=
  fold_left (fun acc tr => snd (updateSessionStats tr no_faults acc)) trs w.

Definition is_win (tr : TradeResult) : bool := (result tr =? "win")%string.

(** The run of consecutive losses after one more result. *)
Definition streak (k : nat) (tr : TradeResult) : nat :=
  if (result tr =? "win")%string then 0%nat
  else if (result tr =? "loss")%string then (k + 1)%nat
  else k.

Definition counters_ok (s : TradingSession) : Prop :=
  (winning_trades s <= total_trades s)%nat.

(** The virtual [win_rate] of the session schema. *)
Definition win_rate (s : TradingSession) : number :=
  if (total_trades s =? 0)%nat then Num 0
  else Num (inject_Z (Z.of_nat (winning_trades s))
            / inject_Z (Z.of_nat (total_trades s)) * 100).

(** What the methods of a stream keep true. *)
Definition stream_ok (s0 s : MarketDataStream.t) : Prop :=
  MarketDataStream.MAX_RECONNECTS s = MarketDataStream.MAX_RECONNECTS s0
  /\ MarketDataStream.RECONNECT_DELAY_BASE s
     = MarketDataStream.RECONNECT_DELAY_BASE s0
  /\ (MarketDataStream.reconnectAttempts s
      <= MarketDataStream.MAX_RECONNECTS s)%nat
  /\ (MarketDataStream.isConnecting s = true ->
      MarketDataStream.isConnected s = false)
  /\ (MarketDataStream.ticking s = true ->
      MarketDataStream.isConnected s = true).

Definition is_timer (eff : MarketDataStream.Effect) : bool :=
  match eff with
  | MarketDataStream.SetTimeout _ => true
  | MarketDataStream.Emit _ => false
  end.

Definition is_error (eff : MarketDataStream.Effect) : bool :=
  match eff with
  | MarketDataStream.Emit MarketDataStream.EmitError => true
  | _ => false
  end.

(** [w'] is no more active than [w]: the flag does not go from false to
    true, the queue does not grow and the pending executions are the
    same. *)
Definition calm (w w' : World) : Prop :=
  (isActive (mgr w) = false -> isActive (mgr w') = false)
  /\ (List.length (tradeQueue (mgr w')) <= List.length (tradeQueue (mgr w)))%nat
  /\ inFlight w' = inFlight w.

(** The session after a settlement of [tr]: the counters and the balance
    of the stored document [d], the loss streak of the handle [s]. *)
Definition settled_session (tr : TradeResult) (s d : TradingSession)
  : TradingSession :=
  set_final_balance
    (add (final_balance (apply_updates tr s d)) (profitOrLoss tr))
    (apply_updates tr s d).

(** The session written by a stop: the stored document [d] with the
    balance of the handle [s], the terminal status and the end time. *)
Definition closed_session (reason : string) (now : Z) (s d : TradingSession)
  : TradingSession :=
  {| initial_balance := initial_balance d;
     final_balance := final_balance s;
     total_trades := total_trades d;
     winning_trades := winning_trades d;
     consecutive_losses := consecutive_losses d;
     status := finalStatus reason;
     session_end := Some now |}.

(** How a turn can change the session handle and the stored session
    document.  [c] tells whether the turn commits (see [commits]). *)
Inductive session_change (c : bool) (w w' : World) : Prop :=
| sc_same :
    session (mgr w') = session (mgr w) ->
    session_doc (db w') = session_doc (db w) ->
    session_change c w w'
| sc_settled (tr : TradeResult) (s d : TradingSession) :
    session (mgr w) = Some s -> session_doc (db w) = Some d ->
    session (mgr w') = Some (settled_session tr s d) ->
    (session_doc (db w') = Some (settled_session tr s d)
     \/ (c = false /\ session_doc (db w') = Some d)) ->
    session_change c w w'
| sc_closed (reason : string) (now : Z) (s d : TradingSession) :
    session (mgr w) = Some s -> session_doc (db w) = Some d ->
    session (mgr w') = Some (closed_session reason now s d) ->
    session_doc (db w') = Some (closed_session reason now s d) ->
    session_change c w w'
| sc_started :
    session (mgr w') = Some (new_session (config (mgr w))) ->
    (session_doc (db w') = Some (new_session (config (mgr w)))
     \/ (c = false /\ session_doc (db w') = session_doc (db w))) ->
    session_change c w w'.

(* ================================================================== *)
(** * Properties *)

(** ** Comparisons of JavaScript numbers *)

Lemma le_Num (x y : Q) : le (Num x) (Num y) = true <-> x <= y.
Proof. apply Qle_bool_iff. Qed.

Lemma lt_Num (x y : Q) : lt (Num x) (Num y) = true <-> x < y.
Proof.
  unfold lt. rewrite negb_true_iff. split.
  - intros H. apply Qnot_le_lt. intros Hle.
    apply Qle_bool_iff in Hle. congruence.
  - intros H. destruct (Qle_bool y x) eqn:E; [|reflexivity].
    apply Qle_bool_iff in E. exfalso. apply (Qlt_not_le _ _ H E).
Qed.

Lemma le_Le (a b : number) : le a b = true <-> Le a b.
Proof.
  split.
  - destruct a as [|x], b as [|y]; simpl; try discriminate.
    intros H. constructor. now apply Qle_bool_iff.
  - intros [x y H]. now apply le_Num.
Qed.

Lemma lt_Lt (a b : number) : lt a b = true <-> Lt a b.
Proof.
  split.
  - destruct a as [|x], b as [|y]; try (simpl; discriminate).
    intros H. constructor. now apply lt_Num.
  - intros [x y H]. now apply lt_Num.
Qed.

Lemma truthy_Num (q : Q) : truthy (VNum (Num q)) = true <-> ~ q == 0.
Proof.
  simpl. rewrite negb_true_iff. split.
  - intros H Hq. apply Qeq_bool_iff in Hq. congruence.
  - intros H. destruct (Qeq_bool q 0) eqn:E; [|reflexivity].
    apply Qeq_bool_iff in E. contradiction.
Qed.

(** ** RiskManager.approveTrade *)

(** A trade is approved exactly when the stake is of type number, is not
    [<= 0] and is not [>] the live balance, both in the JavaScript sense. *)
Lemma approveTrade_true_iff (s : TradingSession) (a : Analysis) :
  RiskManager.approveTrade (Some s) (Some a) = true <->
  exists n, amount a = VNum n /\ ~ Le n (Num 0) /\ ~ Lt (final_balance s) n.
Proof.
  unfold RiskManager.approveTrade, gt. split.
  - destruct (amount a) as [| |b|n|str]; try discriminate.
    destruct (le n (Num 0)) eqn:E1; try discriminate.
    destruct (lt (final_balance s) n) eqn:E2; try discriminate.
    intros _. exists n. repeat split.
    + intros H. apply le_Le in H. congruence.
    + intros H. apply lt_Lt in H. congruence.
  - intros (n & -> & H1 & H2).
    destruct (le n (Num 0)) eqn:E1.
    { apply le_Le in E1. contradiction. }
    destruct (lt (final_balance s) n) eqn:E2.
    { apply lt_Lt in E2. contradiction. }
    reflexivity.
Qed.

(** With a rational stake [q] and a rational balance [b], approval is
    [0 < q <= b]: zero, negative and too large stakes are rejected, a stake
    equal to the balance is approved. *)
Lemma approveTrade_rational (s : TradingSession) (a : Analysis) (q b : Q) :
  amount a = VNum (Num q) -> final_balance s = Num b ->
  (RiskManager.approveTrade (Some s) (Some a) = true <-> 0 < q /\ q <= b).
Proof.
  intros Ha Hb. unfold RiskManager.approveTrade, gt. rewrite Ha, Hb.
  destruct (le (Num q) (Num 0)) eqn:E1.
  - apply le_Num in E1. split; [discriminate|]. intros [H _]. lra.
  - destruct (lt (Num b) (Num q)) eqn:E2.
    + apply lt_Num in E2. split; [discriminate|]. intros [_ H]. lra.
    + split; [|reflexivity]. intros _. split.
      * apply Qnot_le_lt. intros H. apply le_Num in H. congruence.
      * apply Qnot_lt_le. intros H. apply lt_Num in H. congruence.
Qed.

Lemma approveTrade_not_a_number (s : TradingSession) (a : Analysis) :
  typeof_number (amount a) = false ->
  RiskManager.approveTrade (Some s) (Some a) = false.
Proof.
  unfold RiskManager.approveTrade.
  destruct (amount a); simpl; congruence.
Qed.

(** C1 (the code departs from the claim at a [NaN] stake).  The claim
    wants [approveTrade] to return [false] for a stake that is [NaN].  The
    guard [typeof analysis.amount !== 'number'] lets [NaN] through, both
    comparisons with [NaN] are false, and the trade is approved: for every
    session, [approveTrade] returns [true] on a [NaN] stake. *)
Theorem approveTrade_NaN_stake_is_approved :
  forall (s : TradingSession) (dir : string) (dur conf : number),
    RiskManager.approveTrade
      (Some s) (Some (mkAnalysis dir (VNum NaN) dur conf)) = true.
Proof.
  intros s dir dur conf. unfold RiskManager.approveTrade, gt, lt. simpl.
  destruct (final_balance s); reflexivity.
Qed.

(** ** TradingEngine.applyMartingaleStrategy *)

Lemma applyMartingaleStrategy_guard (failed : bool) (n : nat) (b : value)
    (m : option number) :
  invalid_baseStake b ->
  TradingEngine.applyMartingaleStrategy failed n b m = or b (VNum (Num 1)).
Proof.
  intros [H | (q & -> & Hq)].
  - destruct b; simpl in *; try reflexivity; discriminate.
  - unfold TradingEngine.applyMartingaleStrategy.
    apply le_Num in Hq. now rewrite Hq.
Qed.

(** *** On binary64 *)

Section Binary64_stake.

Import PrimFloat.
#[local] Set Warnings "-inexact-float".
Local Open Scope float_scope.

Lemma double_pos_not_le_zero (b : float) : (0 <? b) = true -> (b <=? 0) = false.
Proof.
  rewrite FloatAxioms.ltb_spec, FloatAxioms.leb_spec.
  change (FloatOps.Prim2SF 0) with (SpecFloat.S754_zero false).
  destruct (FloatOps.Prim2SF b) as [sg|sg| |sg m e]; cbn; try discriminate;
    destruct sg; cbn; try discriminate; reflexivity.
Qed.

Lemma double_leb_refl (x : float) : is_nan x = false -> (x <=? x) = true.
Proof.
  unfold is_nan. rewrite negb_false_iff.
  rewrite FloatAxioms.eqb_spec, FloatAxioms.leb_spec.
  unfold SpecFloat.SFeqb, SpecFloat.SFleb.
  destruct (SpecFloat.SFcompare _ _) as [[| |]|]; try discriminate.
  reflexivity.
Qed.

Lemma double_truthy_not_nan (x : float) :
  Double.truthy_number x = true -> is_nan x = false.
Proof.
  unfold Double.truthy_number. rewrite negb_true_iff.
  intros H. apply orb_false_iff in H. apply H.
Qed.

(** After one loss the stake is the product of base stake and multiplier,
    whatever the engine does for larger exponents. *)
Lemma applyMartingaleStrategy_one_loss (approx : float -> nat -> float)
    (b m : float) :
  (b <=? 0) = false ->
  Double.applyMartingaleStrategy approx true 1 (Double.VNum b) (Some m)
  = Double.VNum (b * m).
Proof.
  intros H. unfold Double.applyMartingaleStrategy. rewrite H. reflexivity.
Qed.

(** C7 (counterexample).  With base stake 0.1, multiplier 3 and one loss
    the strategy returns the binary64 product 0.30000000000000004.  The
    real number this stands for is not the product of the real numbers the
    two arguments stand for, and it is not 3/10.  With base stake 1e308
    and multiplier 10 the result is [Infinity], which is no real number. *)
Lemma applyMartingaleStrategy_product_is_rounded :
  Double.applyMartingaleStrategy Double.pow_by_multiplication true 1
    (Double.VNum 0.1) (Some 3)
  = Double.VNum 0.30000000000000004
  /\ (exists r b m,
        Double.real 0.30000000000000004 = Some r
        /\ Double.real 0.1 = Some b /\ Double.real 3 = Some m
        /\ ~ (r == b * m ^ 1)%Q /\ ~ (r == 3 # 10)%Q)
  /\ Double.applyMartingaleStrategy Double.pow_by_multiplication true 1
       (Double.VNum 1e308) (Some 10)
     = Double.VNum infinity
  /\ Double.real infinity = None.
Proof.
  split; [reflexivity|]. split.
  - eexists. eexists. eexists.
    split; [vm_compute; reflexivity|].
    split; [vm_compute; reflexivity|].
    split; [vm_compute; reflexivity|].
    split; intros H; vm_compute in H; discriminate H.
  - split; reflexivity.
Qed.

(** C7 (amended).  For a base stake [b > 0], [applyMartingaleStrategy]
    returns [b] when the last trade did not fail and the binary64 product
    [b * Math.pow(m, n)] when it failed, [m] being the multiplier (2 when
    it is not given) and [n] the loss count.  With base 10 and multiplier 2
    it returns 10 after a trade that did not fail, whatever [n], and 80
    after three losses on an engine whose [Math.pow(2, 3)] is 8.  The
    result depends on the arguments only: the embedding is a function of
    them and reads no state. *)
Theorem applyMartingaleStrategy_stake :
  forall (approx : float -> nat -> float) (failed : bool) (n : nat)
         (b : float) (m : option float),
    (0 <? b) = true ->
    Double.applyMartingaleStrategy approx failed n (Double.VNum b) m
      = Double.VNum
          (if failed
           then b * Double.Math_pow approx
                      (match m with Some x => x | None => 2 end) n
           else b)
    /\ Double.applyMartingaleStrategy approx false n (Double.VNum 10) (Some 2)
       = Double.VNum 10
    /\ (approx 2 3%nat = 8 ->
        Double.applyMartingaleStrategy approx true 3 (Double.VNum 10) (Some 2)
        = Double.VNum 80).
Proof.
  intros approx failed n b m Hb. split; [|split].
  - unfold Double.applyMartingaleStrategy.
    rewrite (double_pos_not_le_zero b Hb). destruct failed; reflexivity.
  - reflexivity.
  - intros H. unfold Double.applyMartingaleStrategy, Double.Math_pow.
    cbn. rewrite H. reflexivity.
Qed.

Lemma applyMartingaleStrategy_stake_witness :
  Double.applyMartingaleStrategy Double.pow_by_multiplication true 3
    (Double.VNum 10) (Some 2)
  = Double.VNum 80.
Proof.
  apply (applyMartingaleStrategy_stake
           Double.pow_by_multiplication true 3 10 (Some 2));
    reflexivity.
Defined.

End Binary64_stake.

(** The default multiplier is 2. *)
Lemma applyMartingaleStrategy_default_multiplier (failed : bool) (n : nat)
    (b : value) :
  TradingEngine.applyMartingaleStrategy failed n b None
  = TradingEngine.applyMartingaleStrategy failed n b (Some (Num 2)).
Proof. reflexivity. Qed.

(** C6 (counterexample).  With [baseStake = -5] the strategy does not fall
    back to 1: it returns [-5], and the execution launched by the manager
    goes to the venue with a stake of [-5]. *)
Lemma applyMartingaleStrategy_negative_base_not_one :
  TradingEngine.applyMartingaleStrategy false 0 (VNum (Num (-5))) (Some (Num 2))
    = VNum (Num (-5))
  /\ TradingEngine.applyMartingaleStrategy false 0 (VNum (Num (-5))) (Some (Num 2))
    <> VNum (Num 1)
  /\ exists p,
       executeTrade_begin (mgr (started (set_baseStake (VNum (Num (-5))) config0)))
                          analysis0
       = AwaitingVenue p analysis0
       /\ tp_stake p = VNum (Num (-5)).
Proof.
  split; [reflexivity|]. split; [discriminate|].
  eexists. split; reflexivity.
Qed.

(** C6 (amended).  When [baseStake] is not of type number or is [<= 0], the
    call does not fail: it returns [baseStake || 1], that is [baseStake]
    itself when it is truthy and exactly 1 when it is falsy.  The manager
    uses the returned value as the stake of the venue call, so a trade
    approved by the risk check is still attempted. *)
Theorem applyMartingaleStrategy_invalid_base :
  forall (failed : bool) (n : nat) (b : value) (m : option number),
    invalid_baseStake b ->
    TradingEngine.applyMartingaleStrategy failed n b m
      = (if truthy b then b else VNum (Num 1))
    /\ forall (mg : Manager) (s : TradingSession) (a : Analysis),
         isActive mg = true -> session mg = Some s ->
         martingaleEnabled (config mg) = true ->
         baseStake (config mg) = b ->
         RiskManager.approveTrade (Some s) (Some a) = true ->
         exists p,
           executeTrade_begin mg a = AwaitingVenue p a
           /\ tp_stake p = (if truthy b then b else VNum (Num 1)).
Proof.
  intros failed n b m Hb. split.
  - now rewrite applyMartingaleStrategy_guard.
  - intros mg s a Hact Hs Hmart Hbase Happ.
    unfold executeTrade_begin. rewrite Hact, Hs, Hmart, Hbase, Happ. simpl.
    eexists. split; [reflexivity|]. simpl.
    now rewrite applyMartingaleStrategy_guard.
Qed.

Lemma applyMartingaleStrategy_invalid_base_witness :
  TradingEngine.applyMartingaleStrategy true 2 (VNum (Num 0)) None
    = VNum (Num 1).
Proof.
  apply (applyMartingaleStrategy_invalid_base true 2 (VNum (Num 0)) None).
  right. exists 0. split; [reflexivity|]. apply Qle_refl.
Defined.

(** ** RiskManager.checkSessionLimits *)

(** C8 (counterexample).  A limit equal to 0 is falsy and switches its
    check off.  With [max_consecutive_losses = 0], or with
    [daily_loss_limit_percentage = 0] and no loss, the specification's
    condition holds and asks for a stop, while the code continues. *)
Lemma checkSessionLimits_zero_limit_continues :
  (RiskManager.checkSessionLimits
     (Some (RiskManager.mkState (Num 100) (Num 100) 0
              (Some (RiskManager.mkLimits (Some (Num 0)) (Some (Num 0.1))))))
   = RiskManager.Continue
   /\ spec_evaluateSessionLimits (Num 100) (Num 100) 0 (Num 0) (Num 0.1)
      = RiskManager.Stop)
  /\
  (RiskManager.checkSessionLimits
     (Some (RiskManager.mkState (Num 100) (Num 100) 1
              (Some (RiskManager.mkLimits (Some (Num 3)) (Some (Num 0))))))
   = RiskManager.Continue
   /\ spec_evaluateSessionLimits (Num 100) (Num 100) 1 (Num 3) (Num 0)
      = RiskManager.Stop).
Proof. repeat split; reflexivity. Qed.

Lemma configured_Some (limit : option number) (n : number) :
  RiskManager.configured limit = Some n <->
  limit = Some n /\ exists q, n = Num q /\ ~ q == 0.
Proof.
  unfold RiskManager.configured. split.
  - destruct limit as [[|q]|]; simpl; try discriminate.
    destruct (Qeq_bool q 0) eqn:E; simpl; try discriminate.
    intros H. injection H as <-. split; [reflexivity|].
    exists q. split; [reflexivity|]. now apply Qeq_bool_neq.
  - intros (-> & q & -> & Hq). apply truthy_Num in Hq. now rewrite Hq.
Qed.

Lemma checkSessionLimits_stop_only_if (initial final : number) (losses : nat)
    (c : RiskManager.LimitsConfig) :
  RiskManager.checkSessionLimits
    (Some (RiskManager.mkState initial final losses (Some c)))
  = RiskManager.Stop ->
  stop_condition initial final losses c.
Proof.
  unfold RiskManager.checkSessionLimits, stop_condition.
  cbn [RiskManager.st_config RiskManager.st_consecutive_losses
       RiskManager.st_initial_balance RiskManager.st_final_balance].
  assert (daily :
    match RiskManager.configured (RiskManager.daily_loss_limit_percentage c) with
    | Some pct =>
        if ge (sub initial final) (mul initial pct)
        then RiskManager.Stop else RiskManager.Continue
    | None => RiskManager.Continue
    end = RiskManager.Stop ->
    exists p i f,
      RiskManager.daily_loss_limit_percentage c = Some (Num p)
      /\ ~ p == 0 /\ initial = Num i /\ final = Num f /\ i * p <= i - f).
  { destruct (RiskManager.configured
                (RiskManager.daily_loss_limit_percentage c))
      as [pct|] eqn:E2; [|discriminate].
    apply configured_Some in E2. destruct E2 as (E2 & p & -> & Hp).
    destruct (ge (sub initial final) (mul initial (Num p))) eqn:G2;
      [|discriminate].
    intros _. destruct initial as [|i], final as [|f]; try discriminate.
    exists p, i, f. repeat split; try assumption. now apply le_Num in G2. }
  destruct (RiskManager.configured (RiskManager.max_consecutive_losses c))
    as [limit|] eqn:E1.
  - apply configured_Some in E1. destruct E1 as (E1 & q & -> & Hq).
    destruct (ge (of_nat losses) (Num q)) eqn:G.
    + intros _. left. exists q. repeat split; try assumption.
      now apply le_Num in G.
    + intros H. right. now apply daily.
  - intros H. right. now apply daily.
Qed.

Lemma checkSessionLimits_stop_if (initial final : number) (losses : nat)
    (c : RiskManager.LimitsConfig) :
  stop_condition initial final losses c ->
  RiskManager.checkSessionLimits
    (Some (RiskManager.mkState initial final losses (Some c)))
  = RiskManager.Stop.
Proof.
  unfold RiskManager.checkSessionLimits, stop_condition.
  cbn [RiskManager.st_config RiskManager.st_consecutive_losses
       RiskManager.st_initial_balance RiskManager.st_final_balance].
  intros [(q & E1 & Hq & Hle) | (p & i & f & E2 & Hp & -> & -> & Hle)].
  - assert (C : RiskManager.configured (RiskManager.max_consecutive_losses c)
                = Some (Num q)).
    { apply configured_Some. split; [assumption|]. now exists q. }
    rewrite C. apply le_Num in Hle. unfold ge, of_nat. now rewrite Hle.
  - assert (C : RiskManager.configured
                  (RiskManager.daily_loss_limit_percentage c)
                = Some (Num p)).
    { apply configured_Some. split; [assumption|]. now exists p. }
    rewrite C. apply le_Num in Hle. unfold ge, sub, mul. rewrite Hle.
    destruct (match RiskManager.configured
                      (RiskManager.max_consecutive_losses c) with
              | Some limit => le limit (of_nat losses)
              | None => false
              end); reflexivity.
Qed.

(** *** On binary64 *)

Section Binary64_limits.

Import PrimFloat.
#[local] Set Warnings "-inexact-float".
Local Open Scope float_scope.

Lemma configured_double (limit : option float) (n : float) :
  Double.configured limit = Some n <->
  limit = Some n /\ Double.truthy_number n = true.
Proof.
  unfold Double.configured. split.
  - destruct limit as [x|]; [|discriminate].
    destruct (Double.truthy_number x) eqn:E; [|discriminate].
    intros H. injection H as <-. split; [reflexivity | exact E].
  - intros (-> & H). now rewrite H.
Qed.

(** C8 (amended).  On binary64 numbers, [checkSessionLimits] returns stop
    if and only if [max_consecutive_losses] is configured and truthy
    (neither 0 nor [NaN]) and [consecutive_losses >= max_consecutive_losses],
    or [daily_loss_limit_percentage] is configured and truthy and the
    binary64 difference [initial_balance - final_balance] is [>=] the
    binary64 product [initial_balance * daily_loss_limit_percentage].
    Both comparisons are inclusive: a loss count equal to the limit stops,
    and so does a difference equal to the product.  With an initial
    balance of 100 and a fraction of 0.5, a balance of 50 stops; with a
    fraction of 0.07 a balance of 93 continues, the product being
    7.000000000000001; with a fraction of 0.1 a balance of 90 stops, the
    product being 10; with both limits 0 nothing stops. *)
Theorem checkSessionLimits_stop_iff :
  forall (initial final losses : float) (c : Double.LimitsConfig),
    (Double.checkSessionLimits
       (Some (Double.mkState initial final losses (Some c)))
     = RiskManager.Stop
     <->
     (exists m, Double.max_consecutive_losses c = Some m
                /\ Double.truthy_number m = true /\ (m <=? losses) = true)
     \/ (exists p, Double.daily_loss_limit_percentage c = Some p
                   /\ Double.truthy_number p = true
                   /\ (initial * p <=? initial - final) = true))
    /\ (forall m,
          Double.max_consecutive_losses c = Some m ->
          Double.truthy_number m = true -> losses = m ->
          Double.checkSessionLimits
            (Some (Double.mkState initial final losses (Some c)))
          = RiskManager.Stop)
    /\ (forall p,
          Double.daily_loss_limit_percentage c = Some p ->
          Double.truthy_number p = true ->
          initial - final = initial * p -> is_nan (initial * p) = false ->
          Double.checkSessionLimits
            (Some (Double.mkState initial final losses (Some c)))
          = RiskManager.Stop)
    /\ Double.checkSessionLimits
         (Some (Double.mkState 100 50 0
                  (Some (Double.mkLimits (Some 3) (Some 0.5)))))
       = RiskManager.Stop
    /\ Double.checkSessionLimits
         (Some (Double.mkState 100 93 0
                  (Some (Double.mkLimits (Some 3) (Some 0.07)))))
       = RiskManager.Continue
    /\ Double.checkSessionLimits
         (Some (Double.mkState 100 90 0
                  (Some (Double.mkLimits (Some 3) (Some 0.1)))))
       = RiskManager.Stop
    /\ Double.checkSessionLimits
         (Some (Double.mkState 100 100 0
                  (Some (Double.mkLimits (Some 0) (Some 0)))))
       = RiskManager.Continue.
Proof.
  intros initial final losses c.
  assert (Iff :
    Double.checkSessionLimits
      (Some (Double.mkState initial final losses (Some c)))
    = RiskManager.Stop
    <->
    (exists m, Double.max_consecutive_losses c = Some m
               /\ Double.truthy_number m = true /\ (m <=? losses) = true)
    \/ (exists p, Double.daily_loss_limit_percentage c = Some p
                  /\ Double.truthy_number p = true
                  /\ (initial * p <=? initial - final) = true)).
  { unfold Double.checkSessionLimits.
    cbn [Double.st_config Double.st_consecutive_losses
         Double.st_initial_balance Double.st_final_balance].
    destruct (Double.configured (Double.max_consecutive_losses c))
      as [limit|] eqn:E1;
    destruct (Double.configured (Double.daily_loss_limit_percentage c))
      as [pct|] eqn:E2;
    try (apply configured_double in E1; destruct E1 as (E1 & T1));
    try (apply configured_double in E2; destruct E2 as (E2 & T2)).
    - destruct (limit <=? losses) eqn:G1.
      + split; [|reflexivity]. intros _. left. now exists limit.
      + destruct (initial * pct <=? initial - final) eqn:G2.
        * split; [|reflexivity]. intros _. right. now exists pct.
        * split; [discriminate|].
          intros [(m & A & _ & B) | (q & A & _ & B)]; congruence.
    - destruct (limit <=? losses) eqn:G1.
      + split; [|reflexivity]. intros _. left. now exists limit.
      + split; [discriminate|].
        intros [(m & A & _ & B) | (q & A & T & _)]; [congruence|].
        assert (K : Double.configured (Double.daily_loss_limit_percentage c)
                    = Some q) by (apply configured_double; now split).
        congruence.
    - destruct (initial * pct <=? initial - final) eqn:G2.
      + split; [|reflexivity]. intros _. right. now exists pct.
      + split; [discriminate|].
        intros [(m & A & T & _) | (q & A & _ & B)]; [|congruence].
        assert (K : Double.configured (Double.max_consecutive_losses c)
                    = Some m) by (apply configured_double; now split).
        congruence.
    - split; [discriminate|].
      intros [(m & A & T & _) | (q & A & T & _)].
      + assert (K : Double.configured (Double.max_consecutive_losses c)
                    = Some m) by (apply configured_double; now split).
        congruence.
      + assert (K : Double.configured (Double.daily_loss_limit_percentage c)
                    = Some q) by (apply configured_double; now split).
        congruence. }
  split; [exact Iff|]. split; [|split; [|repeat split]].
  - intros m Hm Tm ->. apply Iff. left. exists m.
    repeat split; try assumption.
    apply double_leb_refl. now apply double_truthy_not_nan.
  - intros p Hp Tp Heq Hn. apply Iff. right. exists p.
    repeat split; try assumption.
    rewrite Heq. now apply double_leb_refl.
Qed.

End Binary64_limits.

(** ** MarketDataStream: reconnection *)

Import MarketDataStream.

Lemma pow_two (n : nat) : exists p, pow (Num 2) n = Num p /\ p == 2 ^ Z.of_nat n.
Proof.
  destruct n as [|n]; simpl pow.
  - exists 1. split; reflexivity.
  - eexists. split; reflexivity.
Qed.

Lemma reconnect_delay_value (s : MarketDataStream.t) (b random : Q) :
  RECONNECT_DELAY_BASE s = Num b ->
  exists d, reconnect_delay s random = Num d
            /\ d == 2 ^ Z.of_nat (reconnectAttempts s) * b + random * 1000.
Proof.
  intros Hb. unfold reconnect_delay. rewrite Hb.
  destruct (pow_two (reconnectAttempts s)) as (p & -> & Hp).
  simpl. eexists. split; [reflexivity|]. now rewrite Hp.
Qed.

(** Stopping with reason ["market_data_error"] ends in [stopped_auto]. *)
Lemma stopSession_resume_status (reason : string) (now : Z) (w : World)
    (s d : TradingSession) :
  session (mgr w) = Some s -> session_doc (db w) = Some d ->
  exists u,
    session (mgr (stopSession_resume reason now false w)) = Some u
    /\ session_doc (db (stopSession_resume reason now false w)) = Some u
    /\ status u = finalStatus reason
    /\ session_end u = Some now
    /\ final_balance u = final_balance s
    /\ isActive (mgr (stopSession_resume reason now false w)) = false.
Proof.
  intros Hs Hd. unfold stopSession_resume. cbn. rewrite Hs, Hd. cbn.
  eexists. repeat split.
Qed.

(** C9 (counterexample).  The code applies no cap to the delay.  After
    four closes a new stream has made four attempts; the fifth close
    schedules the reconnect after [2^4 * 1000 = 16000] ms when the jitter
    is 0, where the specification's formula with a cap of 10000 ms gives
    10000. *)
Lemma reconnect_delay_has_no_cap :
  let s := fst (closes 4 MarketDataStream.constructor 1006 (fun _ => 0)) in
  reconnectAttempts s = 4%nat
  /\ exists d,
       snd (_onClose s 1006 0)
       = [Emit (EmitClose 1006); SetTimeout (ReconnectAfter (Num d))]
       /\ d == 16000
       /\ spec_reconnect_delay 4 1000 10000 0 == 10000
       /\ ~ d == spec_reconnect_delay 4 1000 10000 0.
Proof.
  cbv zeta. split; [reflexivity|].
  eexists. split; [reflexivity|].
  split; [reflexivity|]. split; [reflexivity|].
  intros H. vm_compute in H. discriminate H.
Qed.

(** C9 (amended).  On an unexpected close with fewer than [MAX_RECONNECTS]
    attempts made, [_onClose] counts one more attempt and schedules a
    reconnect after [2^attempt * RECONNECT_DELAY_BASE + jitter], with
    [jitter = Math.random() * 1000]: the delay lies between
    [2^attempt * base] and [2^attempt * base + 1000], and no cap is
    applied to it.  With [MAX_RECONNECTS] attempts made, no reconnect is
    scheduled and an error is emitted.  [MAX_RECONNECTS] is the constant 5
    and the base delay the constant 1000 of the constructor: five closes
    in a row schedule five reconnects without an error, the sixth emits
    the error. *)
Theorem feed_close_backoff_then_error :
  forall (s : MarketDataStream.t) (b : Q) (code : Z) (random : Q),
    RECONNECT_DELAY_BASE s = Num b -> 0 <= random -> random <= 1 ->
    ((reconnectAttempts s < MAX_RECONNECTS s)%nat ->
       reconnectAttempts (fst (_onClose s code random)) = S (reconnectAttempts s)
       /\ exists d,
            snd (_onClose s code random)
            = [Emit (EmitClose code); SetTimeout (ReconnectAfter (Num d))]
            /\ 2 ^ Z.of_nat (reconnectAttempts s) * b <= d
            /\ d <= 2 ^ Z.of_nat (reconnectAttempts s) * b + 1000)
    /\ ((MAX_RECONNECTS s <= reconnectAttempts s)%nat ->
         reconnectAttempts (fst (_onClose s code random)) = reconnectAttempts s
         /\ snd (_onClose s code random)
            = [Emit (EmitClose code); Emit EmitError])
    /\ MAX_RECONNECTS MarketDataStream.constructor = 5%nat
    /\ RECONNECT_DELAY_BASE MarketDataStream.constructor = Num 1000
    /\ (forall (randoms : nat -> Q) (k : nat),
          (k <= 5)%nat ->
          reconnectAttempts (fst (closes k MarketDataStream.constructor code randoms)) = k
          /\ ~ In (Emit EmitError)
                  (snd (closes k MarketDataStream.constructor code randoms)))
    /\ (forall randoms : nat -> Q,
          In (Emit EmitError)
             (snd (closes 6 MarketDataStream.constructor code randoms))).
Proof.
  intros s b code random Hb Hr0 Hr1.
  split; [|split; [|split; [|split; [|split]]]].
  - intros Hlt. unfold _onClose.
    apply Nat.ltb_lt in Hlt. rewrite Hlt. cbn [fst snd reconnectAttempts].
    split; [reflexivity|].
    destruct (reconnect_delay_value s b random Hb) as (d & -> & Hd).
    exists d. split; [reflexivity|]. rewrite Hd. split; nra.
  - intros Hge. unfold _onClose.
    apply Nat.ltb_ge in Hge. rewrite Hge. split; reflexivity.
  - reflexivity.
  - reflexivity.
  - intros randoms k Hk.
    do 6 (destruct k as [|k];
          [split; [reflexivity|];
           cbn; intros H; repeat (destruct H as [H|H]; [discriminate H|]);
           exact H|]).
    lia.
  - intros randoms. cbn. do 11 right. left. reflexivity.
Qed.

Lemma feed_close_backoff_then_error_witness :
  exists d,
    snd (_onClose MarketDataStream.constructor 1006 0.5)
    = [Emit (EmitClose 1006); SetTimeout (ReconnectAfter (Num d))]
    /\ 2 ^ Z.of_nat 0 * 1000 <= d
    /\ d <= 2 ^ Z.of_nat 0 * 1000 + 1000.
Proof.
  apply (feed_close_backoff_then_error
           MarketDataStream.constructor 1000 1006 0.5).
  - reflexivity.
  - unfold Qle; simpl; lia.
  - unfold Qle; simpl; lia.
  - simpl; lia.
Defined.

(** ** The scheduler: the bound on in-flight executions *)

Lemma same_sched_refl (w : World) : same_sched w w.
Proof. repeat split. Qed.

Lemma same_sched_trans (w1 w2 w3 : World) :
  same_sched w1 w2 -> same_sched w2 w3 -> same_sched w1 w3.
Proof.
  intros (A1 & A2 & A3) (B1 & B2 & B3). repeat split; congruence.
Qed.

Lemma same_sched_Inv (M : Z) (w w' : World) :
  same_sched w w' -> Inv M w -> Inv M w'.
Proof.
  intros (A1 & A2 & A3) (B1 & B2 & B3). unfold Inv.
  rewrite A1, A2, A3. repeat split; assumption.
Qed.

Lemma Inv_within (M : Z) (w : World) : Inv M w -> within M w.
Proof. intros (A & _ & B). split; assumption. Qed.

Ltac sched_cases :=
  repeat match goal with
         | |- context [if ?c then _ else _] => destruct c
         | |- context [match ?x with _ => _ end] => destruct x
         end;
  try (repeat split; reflexivity).

Lemma stopSession_sched (reason : string) (w : World) :
  same_sched w (stopSession reason w).
Proof. unfold stopSession. sched_cases. Qed.

Lemma stopSession_resume_sched (reason : string) (now : Z) (th : bool)
    (w : World) :
  same_sched w (stopSession_resume reason now th w).
Proof. unfold stopSession_resume. cbn. sched_cases. Qed.

Lemma checkRiskLimits_sched (w : World) : same_sched w (checkRiskLimits w).
Proof.
  unfold checkRiskLimits.
  destruct (isActive (mgr w)); [|apply same_sched_refl].
  destruct (session (mgr w)); [|apply same_sched_refl].
  destruct (RiskManager.checkSessionLimits _);
    [apply same_sched_refl | apply stopSession_sched].
Qed.

Lemma recordTrade_sched (tr : TradeResult) (a : Analysis) (f : Faults)
    (w : World) :
  same_sched w (snd (recordTrade tr a f w)).
Proof. unfold recordTrade. sched_cases. Qed.

Lemma updateSessionStats_sched (tr : TradeResult) (f : Faults) (w : World) :
  same_sched w (snd (updateSessionStats tr f w)).
Proof.
  unfold updateSessionStats.
  destruct (session (mgr w)) as [s|]; [|apply same_sched_refl].
  destruct (fail_update f); [apply same_sched_refl|].
  destruct (session_doc (db w)) as [d|]; [|apply same_sched_refl].
  destruct (fail_save f); [repeat split|].
  cbn [snd].
  match goal with
  | |- same_sched _ (with_mgr _ (checkRiskLimits ?x)) =>
      destruct (checkRiskLimits_sched x) as (A1 & A2 & A3)
  end.
  repeat split; cbn; assumption.
Qed.

Lemma recordOutcome_sched (tr : TradeResult) (a : Analysis) (f : Faults)
    (w : World) :
  same_sched w (snd (recordOutcome tr a f w)).
Proof.
  unfold recordOutcome, withTransaction.
  pose proof (recordTrade_sched tr a f w) as H1.
  destruct (recordTrade tr a f w) as [[e|] w1]; cbn [snd] in *.
  - destruct H1 as (A1 & A2 & A3). repeat split; assumption.
  - pose proof (updateSessionStats_sched tr f w1) as H2.
    destruct (updateSessionStats tr f w1) as [[e|] w2]; cbn [snd] in *.
    + destruct (same_sched_trans _ _ _ H1 H2) as (A1 & A2 & A3).
      repeat split; assumption.
    + destruct (same_sched_trans _ _ _ H1 H2) as (A1 & A2 & A3).
      destruct (fail_commit f); repeat split; assumption.
Qed.

Lemma executeTrade_resume_sched (e : Execution) (venue : VenueOutcome)
    (f : Faults) (w : World) :
  same_sched w (snd (executeTrade_resume e venue f w)).
Proof.
  unfold executeTrade_resume.
  destruct e as [|p a]; [apply same_sched_refl|].
  destruct venue as [tr|]; [apply recordOutcome_sched | apply same_sched_refl].
Qed.

Lemma deliver_sched (eff : MarketDataStream.Effect) (w : World) :
  same_sched w (deliver eff w).
Proof.
  unfold deliver. destruct eff as [[| |]|tm]; try apply same_sched_refl.
  - destruct (listening w); [apply stopSession_sched | apply same_sched_refl].
  - repeat split.
Qed.

Lemma deliver_all_sched (effs : list MarketDataStream.Effect) (w : World) :
  same_sched w (deliver_all effs w).
Proof.
  unfold deliver_all. revert w.
  induction effs as [|eff effs IH]; intros w; simpl.
  - apply same_sched_refl.
  - eapply same_sched_trans; [apply deliver_sched | apply IH].
Qed.

Lemma on_feed_sched
    (method : MarketDataStream.t -> MarketDataStream.t * list MarketDataStream.Effect)
    (w : World) :
  same_sched w (on_feed method w).
Proof.
  unfold on_feed. destruct (method _) as [feed effs].
  eapply same_sched_trans; [|apply deliver_all_sched]. repeat split.
Qed.

Lemma startSession_sched (th : bool) (w : World) :
  same_sched w (startSession th w).
Proof.
  unfold startSession.
  destruct (isActive (mgr w)); [apply same_sched_refl|].
  destruct th; [repeat split|].
  unfold connectMarketData.
  match goal with
  | |- same_sched _ (with_mgr _ (on_feed ?m ?x)) =>
      destruct (on_feed_sched m x) as (A1 & A2 & A3)
  end.
  repeat split; cbn; assumption.
Qed.

Lemma remove_nth_length {A : Type} (i : nat) (l : list A) (x : A) :
  nth_error l i = Some x -> S (List.length (remove_nth i l)) = List.length l.
Proof.
  revert i. induction l as [|y l IH]; intros [|i] H; simpl in *;
    try discriminate; try reflexivity.
  now rewrite (IH i H).
Qed.

Lemma launch_Inv (M : Z) (job : Job) (rest : list Job) (w : World) :
  Inv M w -> (currentTrades (mgr w) < M)%Z -> Inv M (launch job rest w).
Proof.
  intros (A & B & C) Hlt. unfold Inv, launch. cbn.
  rewrite length_app. cbn. repeat split; [assumption | lia | lia].
Qed.

Lemma dispatch_Inv (M : Z) (queue : list Job) (w : World) :
  Inv M w -> Inv M (dispatch queue w).
Proof.
  revert w. induction queue as [|job rest IH]; intros w HI; simpl.
  - assumption.
  - destruct (currentTrades (mgr w) <? MAX_CONCURRENT_TRADES (mgr w))%Z eqn:E.
    + apply IH, launch_Inv; [assumption|].
      destruct HI as (A & _). apply Z.ltb_lt in E. lia.
    + assumption.
Qed.

Lemma dispatch_trace_Inv (M : Z) (queue : list Job) (w : World) :
  Inv M w -> Forall (Inv M) (dispatch_trace queue w).
Proof.
  revert w. induction queue as [|job rest IH]; intros w HI; simpl.
  - constructor.
  - destruct (currentTrades (mgr w) <? MAX_CONCURRENT_TRADES (mgr w))%Z eqn:E.
    + assert (HL : Inv M (launch job rest w)).
      { apply launch_Inv; [assumption|].
        destruct HI as (A & _). apply Z.ltb_lt in E. lia. }
      constructor; [assumption | now apply IH].
    + constructor.
Qed.

Lemma last_cons_default {A : Type} (x : A) (l : list A) (d d' : A) :
  last (x :: l) d = last (x :: l) d'.
Proof.
  revert x. induction l as [|y l IH]; intros x; [reflexivity|].
  change (last (y :: l) d = last (y :: l) d'). apply IH.
Qed.

(** The loop ends in the last world it goes through. *)
Lemma dispatch_last (queue : list Job) (w : World) :
  dispatch queue w = last (dispatch_trace queue w) w.
Proof.
  revert w. induction queue as [|job rest IH]; intros w; simpl.
  - reflexivity.
  - destruct (currentTrades (mgr w) <? MAX_CONCURRENT_TRADES (mgr w))%Z.
    + rewrite IH.
      destruct (dispatch_trace rest (launch job rest w)) as [|w0 l];
        [reflexivity|].
      change (last (launch job rest w :: w0 :: l) w) with (last (w0 :: l) w).
      apply last_cons_default.
    + reflexivity.
Qed.

(** The loop launches as many jobs as the queue and the free slots allow. *)
Lemma dispatch_count (queue : list Job) (w : World) :
  (currentTrades (mgr w) <= MAX_CONCURRENT_TRADES (mgr w))%Z ->
  currentTrades (mgr (dispatch queue w))
  = Z.min (currentTrades (mgr w) + Z.of_nat (List.length queue))
          (MAX_CONCURRENT_TRADES (mgr w)).
Proof.
  revert w. induction queue as [|job rest IH]; intros w Hle.
  - simpl. lia.
  - cbn [dispatch].
    destruct (currentTrades (mgr w) <? MAX_CONCURRENT_TRADES (mgr w))%Z eqn:E.
    + apply Z.ltb_lt in E. rewrite IH; cbn [launch with_mgr set_inFlight mgr
        set_currentTrades set_tradeQueue currentTrades MAX_CONCURRENT_TRADES];
        [|lia].
      cbn [List.length]. rewrite Nat2Z.inj_succ. lia.
    + apply Z.ltb_ge in E. cbn [List.length]. lia.
Qed.

Lemma decrement_Inv (M : Z) (w : World) :
  MAX_CONCURRENT_TRADES (mgr w) = M ->
  currentTrades (mgr w) = (Z.of_nat (List.length (inFlight w)) + 1)%Z ->
  (currentTrades (mgr w) <= M)%Z ->
  Inv M (with_mgr (fun m => set_currentTrades (currentTrades m - 1)%Z m) w).
Proof. intros A B C. unfold Inv. cbn. repeat split; [assumption | lia | lia]. Qed.

Lemma job_finally_Inv (M : Z) (w : World) :
  MAX_CONCURRENT_TRADES (mgr w) = M ->
  currentTrades (mgr w) = (Z.of_nat (List.length (inFlight w)) + 1)%Z ->
  (currentTrades (mgr w) <= M)%Z ->
  Inv M (job_finally w).
Proof.
  intros A B C. pose proof (decrement_Inv M w A B C) as HI.
  unfold job_finally.
  destruct (tradeQueue (mgr (with_mgr _ w))) as [|j q] eqn:Q; [assumption|].
  destruct (_ <? _)%Z; [|assumption].
  unfold processTradeQueue. now apply dispatch_Inv.
Qed.

(** The world in which a settlement starts: the execution has left the
    pending list but still counts as in flight. *)
Lemma settling_pre (M : Z) (w : World) (i : nat) (e : Execution)
    (venue : VenueOutcome) (f : Faults) :
  Inv M w -> nth_error (inFlight w) i = Some e ->
  let w1 :=
    snd (executeTrade_resume e venue f
           (set_inFlight (remove_nth i (inFlight w)) w)) in
  MAX_CONCURRENT_TRADES (mgr w1) = M
  /\ currentTrades (mgr w1) = (Z.of_nat (List.length (inFlight w1)) + 1)%Z
  /\ (currentTrades (mgr w1) <= M)%Z.
Proof.
  intros (A & B & C) Hn w1.
  destruct (executeTrade_resume_sched e venue f
              (set_inFlight (remove_nth i (inFlight w)) w)) as (S1 & S2 & S3).
  fold w1 in S1, S2, S3. cbn in S1, S2, S3.
  rewrite S1, S2, S3. pose proof (remove_nth_length i _ e Hn) as HL.
  repeat split; [assumption | lia | assumption].
Qed.

Lemma step_Inv (M : Z) (ev : Event) (w : World) : Inv M w -> Inv M (step ev w).
Proof.
  intros HI. destruct ev as [th|tick a now|code random|i|i venue f|reason|i now th];
    cbn [step].
  - eapply same_sched_Inv; [apply startSession_sched | assumption].
  - destruct (listening w && isActive (mgr w)); [|assumption].
    unfold handleTick.
    destruct (isActive (mgr w)); [|assumption].
    destruct (session (mgr w)); [|assumption].
    destruct a as [an|]; [|assumption].
    unfold processTradeQueue. apply dispatch_Inv.
    destruct HI as (A & B & C). repeat split; assumption.
  - eapply same_sched_Inv; [apply on_feed_sched | assumption].
  - destruct (nth_error (timers w) i) as [[d|d]|]; [| |assumption];
      (eapply same_sched_Inv; [apply on_feed_sched|]);
      destruct HI as (A & B & C); repeat split; assumption.
  - destruct (nth_error (inFlight w) i) as [e|] eqn:Hn; [|assumption].
    unfold settle.
    destruct (settling_pre M w i e venue f HI Hn) as (A & B & C).
    now apply job_finally_Inv.
  - eapply same_sched_Inv; [apply stopSession_sched | assumption].
  - destruct (nth_error (stopping w) i) as [reason|]; [|assumption].
    eapply same_sched_Inv; [apply stopSession_resume_sched|].
    destruct HI as (A & B & C). repeat split; assumption.
Qed.

Lemma instants_within (M : Z) (ev : Event) (w : World) :
  Inv M w -> Forall (within M) (instants ev w).
Proof.
  intros HI. unfold instants. apply Forall_app. split.
  2:{ constructor; [|constructor]. now apply Inv_within, step_Inv. }
  destruct ev as [th|tick a now|code random|i|i venue f|reason|i now th];
    try constructor.
  - destruct a as [an|]; [|constructor].
    destruct (listening w && isActive (mgr w)); [|constructor].
    destruct (session (mgr w)); [|constructor].
    assert (HP : Inv M (with_mgr (fun m =>
                   set_tradeQueue (tradeQueue m ++ [mkJob now an tick]) m) w)).
    { destruct HI as (A & B & C). repeat split; assumption. }
    constructor; [now apply Inv_within|].
    eapply Forall_impl; [apply Inv_within|]. now apply dispatch_trace_Inv.
  - destruct (nth_error (inFlight w) i) as [e|] eqn:Hn; [|constructor].
    destruct (settling_pre M w i e venue f HI Hn) as (A & B & C).
    constructor; [split; assumption|].
    pose proof (decrement_Inv M _ A B C) as HD.
    constructor; [now apply Inv_within|].
    eapply Forall_impl; [apply Inv_within|]. now apply dispatch_trace_Inv.
Qed.

Lemma run_instants_within (M : Z) (evs : list Event) (w : World) :
  Inv M w -> Forall (within M) (run_instants evs w).
Proof.
  revert w. induction evs as [|ev evs IH]; intros w HI; simpl.
  - constructor.
  - apply Forall_app. split; [now apply instants_within|].
    apply IH. now apply step_Inv.
Qed.

(** Every turn ends in the world [step] computes. *)
Lemma instants_last (ev : Event) (w : World) :
  last (instants ev w) w = step ev w.
Proof. unfold instants. apply last_last. Qed.

(** C2.  Whatever the ticks, completions, stops and feed events, and in
    whatever order the pending executions complete, the in-flight counter
    [currentTrades] is at most [MAX_CONCURRENT_TRADES] in every world the
    process goes through, inside the loop of [processTradeQueue] and the
    [finally] callback included.  [MAX_CONCURRENT_TRADES] is
    [config.max_concurrent_trades || 5] and never changes; the statement
    is for a maximum that is not negative. *)
Theorem currentTrades_never_exceeds_max :
  forall (cfg : Config) (feed : MarketDataStream.t) (store : DB)
         (evs : list Event),
    (0 <= MAX_CONCURRENT_TRADES (TradingSessionManager.constructor cfg feed))%Z ->
    Forall (fun w =>
              MAX_CONCURRENT_TRADES (mgr w)
              = MAX_CONCURRENT_TRADES (TradingSessionManager.constructor cfg feed)
              /\ (currentTrades (mgr w)
                  <= MAX_CONCURRENT_TRADES (TradingSessionManager.constructor cfg feed))%Z)
           (boot cfg feed store :: run_instants evs (boot cfg feed store))
    /\ (max_concurrent_trades cfg = None ->
        MAX_CONCURRENT_TRADES (TradingSessionManager.constructor cfg feed) = 5%Z).
Proof.
  intros cfg feed store evs Hmax. split.
  - assert (HI : Inv (MAX_CONCURRENT_TRADES (TradingSessionManager.constructor cfg feed))
                     (boot cfg feed store)).
    { repeat split. exact Hmax. }
    constructor.
    + now apply Inv_within.
    + now apply run_instants_within.
  - intros H. cbn. now rewrite H.
Qed.

Lemma currentTrades_never_exceeds_max_witness :
  Forall (fun w =>
            MAX_CONCURRENT_TRADES (mgr w) = 3%Z
            /\ (currentTrades (mgr w) <= 3)%Z)
         (let w0 := boot config0 MarketDataStream.constructor (mkDB None []) in
          w0 :: run_instants
                  [Start false;
                   FeedTick (mkTick (Num 100) 1) (Some analysis0) 1;
                   FeedTick (mkTick (Num 101) 2) (Some analysis0) 2;
                   FeedTick (mkTick (Num 102) 3) (Some analysis0) 3;
                   FeedTick (mkTick (Num 103) 4) (Some analysis0) 4;
                   Settle 1 VenueThrows no_faults]
                  w0).
Proof.
  apply (currentTrades_never_exceeds_max
           config0 MarketDataStream.constructor (mkDB None [])).
  cbn. lia.
Defined.

(** ** Settlement: the session counters *)

Lemma stopSession_session (reason : string) (w : World) :
  same_session w (stopSession reason w).
Proof. unfold stopSession. destruct (_ && _); split; reflexivity. Qed.

Lemma checkRiskLimits_session (w : World) : same_session w (checkRiskLimits w).
Proof.
  unfold checkRiskLimits.
  destruct (isActive (mgr w)); [|split; reflexivity].
  destruct (session (mgr w)) eqn:E; [|split; reflexivity].
  destruct (RiskManager.checkSessionLimits _); [split; reflexivity|].
  apply stopSession_session.
Qed.

Lemma dispatch_session (queue : list Job) (w : World) :
  same_session w (dispatch queue w).
Proof.
  revert w. induction queue as [|job rest IH]; intros w; simpl.
  - split; reflexivity.
  - destruct (_ <? _)%Z; [|split; reflexivity].
    destruct (IH (launch job rest w)) as (A & B). split.
    + now rewrite A.
    + now rewrite B.
Qed.

Lemma job_finally_session (w : World) : same_session w (job_finally w).
Proof.
  unfold job_finally.
  destruct (tradeQueue _); [split; reflexivity|].
  destruct (_ <? _)%Z; [|split; reflexivity].
  unfold processTradeQueue.
  match goal with
  | |- same_session _ (dispatch ?q ?x) => destruct (dispatch_session q x) as (A & B)
  end.
  split; [now rewrite A | now rewrite B].
Qed.

(** What a fault-free [updateSessionStats] writes, field by field: [u] is
    both the new handle and the stored document. *)
Lemma updateSessionStats_ok (tr : TradeResult) (w : World)
    (s d : TradingSession) :
  session (mgr w) = Some s -> session_doc (db w) = Some d ->
  exists w' u,
    updateSessionStats tr no_faults w = (None, w')
    /\ session (mgr w') = Some u
    /\ session_doc (db w') = Some u
    /\ trade_docs (db w') = trade_docs (db w)
    /\ total_trades u = (total_trades d + 1)%nat
    /\ winning_trades u
       = (winning_trades d + (if (result tr =? "win")%string then 1 else 0))%nat
    /\ consecutive_losses u
       = (if (result tr =? "win")%string then 0%nat
          else if (result tr =? "loss")%string then (consecutive_losses s + 1)%nat
          else consecutive_losses d)
    /\ final_balance u = add (final_balance d) (profitOrLoss tr)
    /\ initial_balance u = initial_balance d
    /\ status u = status d
    /\ session_end u = session_end d.
Proof.
  intros Hs Hd. unfold updateSessionStats. rewrite Hs. cbn [no_faults fail_update].
  rewrite Hd. cbn [fail_save].
  eexists. eexists. split; [reflexivity|].
  match goal with
  | |- context [checkRiskLimits ?x] =>
      destruct (checkRiskLimits_session x) as (A & B)
  end.
  cbn [with_mgr mgr db set_lastTradeFailed session].
  rewrite A, B. cbn. repeat split.
Qed.



Section Binary64_balance.

Import PrimFloat.
#[local] Set Warnings "-inexact-float".
Local Open Scope float_scope.

(** A stake of 0.35 taken from a balance of 10000 leaves the binary64
    number nearest to 9999.65, which is not 9999.65. *)
Lemma final_balance_after_is_rounded :
  Double.final_balance_after 10000 "pending" 0 0.35 = 9999.65
  /\ exists r, Double.real 9999.65 = Some r /\ ~ (r == 999965 # 100)%Q.
Proof.
  split; [reflexivity|]. eexists. split; [vm_compute; reflexivity|].
  intros H. vm_compute in H. discriminate H.
Qed.

End Binary64_balance.

(** A settlement that runs as one turn: with a winning result it leaves
    [consecutive_losses] at 0, with a losing result at one more than the
    handle had when the turn began. *)
Lemma consecutive_losses_after_settlement (w : World) (i : nat)
    (p : TradeParams) (a : Analysis) (tr : TradeResult)
    (s d : TradingSession) :
  nth_error (inFlight w) i = Some (AwaitingVenue p a) ->
  session (mgr w) = Some s -> session_doc (db w) = Some d ->
  exists u,
    session (mgr (step (Settle i (VenueReturns tr) no_faults) w)) = Some u
    /\ session_doc (db (step (Settle i (VenueReturns tr) no_faults) w)) = Some u
    /\ (result tr = "win"%string -> consecutive_losses u = 0%nat)
    /\ (result tr = "loss"%string ->
        consecutive_losses u = (consecutive_losses s + 1)%nat).
Proof.
  intros Hn Hs Hd.
  cbn [step]. rewrite Hn. unfold settle.
  match goal with
  | |- context [job_finally ?x] => destruct (job_finally_session x) as (A & B)
  end.
  rewrite A, B. clear A B.
  cbn [executeTrade_resume]. unfold recordOutcome, withTransaction, recordTrade.
  cbn [set_inFlight mgr db]. rewrite Hs. cbn [no_faults fail_create].
  match goal with
  | |- context [updateSessionStats tr no_faults ?x] =>
      destruct (updateSessionStats_ok tr x s d) as
        (w' & u & E & H1 & H2 & _ & _ & _ & H5 & _);
      [exact Hs | exact Hd | rewrite E]
  end.
  cbn [fail_commit snd]. exists u. repeat split; try assumption.
  - intros Hw. rewrite H5, Hw. reflexivity.
  - intros Hl. rewrite H5, Hl. reflexivity.
Qed.

(** The update document applied to the stored document gives what
    [apply_updates] gives. *)
Lemma findByIdAndUpdate_build_updates (tr : TradeResult)
    (s d : TradingSession) :
  findByIdAndUpdate (build_updates tr s) d = apply_updates tr s d.
Proof.
  unfold findByIdAndUpdate, build_updates, apply_updates. cbn.
  destruct (result tr =? "win")%string;
    [|destruct (result tr =? "loss")%string]; reflexivity.
Qed.

(** The pieces of a scope run with nothing in between do what the one
    turn [settle] does without a fault. *)
Lemma scope_uninterrupted (w : World) (p : TradeParams) (a : Analysis)
    (tr : TradeResult) (s d : TradingSession) :
  session (mgr w) = Some s -> session_doc (db w) = Some d ->
  scope_run 5 (AtStartSession tr a) w
  = settle (AwaitingVenue p a) (VenueReturns tr) no_faults w.
Proof.
  intros Hs Hd.
  unfold settle, executeTrade_resume, recordOutcome, withTransaction,
    recordTrade, updateSessionStats.
  cbn [scope_run scope_resume]. rewrite Hs.
  cbn [no_faults fail_create fail_update fail_save fail_commit
       set_db mgr db session_doc].
  rewrite Hs, Hd.
  cbn [scope_run scope_resume snd]. rewrite Hs.
  cbn [scope_run scope_resume snd]. rewrite Hd.
  cbn [scope_run scope_resume snd].
  f_equal.
  rewrite findByIdAndUpdate_build_updates.
  unfold checkRiskLimits, tradeData.
  destruct w as [[cfg ses act q ct mx ltf feed] [sd tds] fl sp tm li].
  cbn -[RiskManager.checkSessionLimits] in Hs, Hd |- *.
  destruct act; [|reflexivity].
  destruct (RiskManager.checkSessionLimits _); [reflexivity|].
  unfold stopSession. cbn. reflexivity.
Qed.


(** ** The transactional scope of [executeTrade] *)

(** When the insert, the update or the save fails, the store is as
    before, the error reaches the caller and nothing in memory has
    changed: the handle is only replaced on line 519, after the three
    operations. *)
Lemma recordOutcome_failed_operation (tr : TradeResult) (a : Analysis)
    (f : Faults) (w : World) (s d : TradingSession) :
  session (mgr w) = Some s -> session_doc (db w) = Some d ->
  fail_create f = true \/ fail_update f = true \/ fail_save f = true ->
  recordOutcome tr a f w = (Some DbError, w).
Proof.
  intros Hs Hd Hf. unfold recordOutcome, withTransaction, recordTrade.
  rewrite Hs. destruct w as [m st fl sp tm li]. cbn in Hs, Hd |- *.
  destruct (fail_create f) eqn:F1; [reflexivity|].
  unfold updateSessionStats. cbn. rewrite Hs.
  destruct (fail_update f) eqn:F2; [reflexivity|].
  cbn. rewrite Hd.
  destruct (fail_save f) eqn:F3.
  - cbn. destruct st. reflexivity.
  - destruct Hf as [Hf | [Hf | Hf]]; discriminate Hf.
Qed.

(** Whatever fails, the store is as before and the caller gets an
    error. *)
Lemma recordOutcome_rolls_back (tr : TradeResult) (a : Analysis)
    (f : Faults) (w : World) :
  fst (recordOutcome tr a f w) <> None ->
  db (snd (recordOutcome tr a f w)) = db w.
Proof.
  unfold recordOutcome, withTransaction.
  destruct (recordTrade tr a f w) as [[e|] w1].
  - reflexivity.
  - destruct (updateSessionStats tr f w1) as [[e|] w2].
    + reflexivity.
    + destruct (fail_commit f); [reflexivity|]. intros H. now elim H.
Qed.

(** C4 (the code departs from the claim when the commit fails).  One
    trade is in flight on a started session and loses; insert, update and
    save succeed and the commit of the transaction fails.  Both writes are
    rolled back and the error reaches the caller, but the in-memory handle
    was replaced inside the scope (line 519): it shows one trade, one
    consecutive loss and a balance of 9990, while the store still holds
    the untouched session and no trade. *)
Theorem recordOutcome_commit_failure_changes_handle :
  let w := run one_tick (started config0) in
  let r := recordOutcome loss_result analysis0
                         (mkFaults false false false true) w in
  fst r = Some CommitError
  /\ db (snd r) = db w
  /\ session (mgr w) = Some session0
  /\ session (mgr (snd r))
     = Some {| initial_balance := Num 10000;
               final_balance := Num (10000 + - 10);
               total_trades := 1;
               winning_trades := 0;
               consecutive_losses := 1;
               status := active;
               session_end := None |}
  /\ session (mgr (snd r)) <> session (mgr w).
Proof.
  cbv zeta. repeat split. intros H. discriminate H.
Qed.

(** ** stopSession *)

(** A call of [stopSession] on a manager that is inactive and whose
    session is no longer ['active'] changes nothing. *)
Lemma stopSession_when_stopped (reason : string) (w : World)
    (s : TradingSession) :
  isActive (mgr w) = false -> session (mgr w) = Some s -> status s <> active ->
  stopSession reason w = w.
Proof.
  intros Ha Hs Hst. unfold stopSession, status_not_active.
  rewrite Ha, Hs. destruct (status s); try reflexivity. contradiction.
Qed.

(** A second call after the first one has run to its end is a no-op. *)
Lemma stopSession_twice_in_sequence (r1 r2 : string) (now : Z) (w : World)
    (s d : TradingSession) :
  session (mgr w) = Some s -> session_doc (db w) = Some d ->
  stopSession r2 (stopSession_resume r1 now false w)
  = stopSession_resume r1 now false w.
Proof.
  intros Hs Hd.
  destruct (stopSession_resume_status r1 now w s d Hs Hd)
    as (u & H1 & _ & H2 & _ & _ & H3).
  apply (stopSession_when_stopped r2 _ u H3 H1).
  rewrite H2. unfold finalStatus.
  destruct (_ || _); [discriminate|].
  destruct (_ =? _)%string; discriminate.
Qed.

(** A call made while an earlier one is suspended passes the guard again:
    the flag [isActive] is already false but the handle still says
    ['active']. *)
Lemma stopSession_while_stopping (r1 r2 : string) (w : World)
    (s : TradingSession) :
  session (mgr w) = Some s -> status s = active ->
  stopping (stopSession r2 (stopSession r1 w)) = stopping w ++ [r1; r2].
Proof.
  intros Hs Hst. unfold stopSession, status_not_active.
  rewrite Hs, Hst. cbn. rewrite andb_false_r. cbn.
  rewrite Hs, Hst. cbn. rewrite <- app_assoc. reflexivity.
Qed.

(** C3 (the code departs from the claim).  On a started session,
    [stopSession('risk_limit_breach')] followed, before it resumes, by
    [stopSession('user_request')] leaves two stop procedures pending, and
    once both have run the session is [stopped_user] with the end time of
    the second; a single call ends in [stopped_auto] with the end time of
    the first. *)
Theorem stopSession_twice_while_stopping_differs :
  let w := started config0 in
  let once :=
    run [Stop "risk_limit_breach"; StopResumes 0 100 false] w in
  let twice :=
    run [Stop "risk_limit_breach"; Stop "user_request";
         StopResumes 0 100 false; StopResumes 0 200 false] w in
  stopping (run [Stop "risk_limit_breach"] w) = ["risk_limit_breach"%string]
  /\ stopping (run [Stop "risk_limit_breach"; Stop "user_request"] w)
     = ["risk_limit_breach"; "user_request"]%string
  /\ option_map (fun u => (status u, session_end u)) (session (mgr once))
     = Some (stopped_auto, Some 100%Z)
  /\ option_map (fun u => (status u, session_end u)) (session (mgr twice))
     = Some (stopped_user, Some 200%Z)
  /\ session_doc (db twice) = session (mgr twice)
  /\ session (mgr once) <> session (mgr twice).
Proof.
  cbv zeta. repeat split. intros H. discriminate H.
Qed.

(* ================================================================== *)
(** * Further properties of the code *)

(** ** The queue: order and backpressure *)

Lemma dispatch_shape (queue : list Job) (w : World) :
  let k := Z.to_nat (Z.min (Z.of_nat (List.length queue))
                           (MAX_CONCURRENT_TRADES (mgr w) - currentTrades (mgr w))) in
  inFlight (dispatch queue w)
  = inFlight w
    ++ map (fun j => executeTrade_begin (mgr w) (analysis j)) (firstn k queue)
  /\ currentTrades (mgr (dispatch queue w))
     = (currentTrades (mgr w) + Z.of_nat k)%Z
  /\ tradeQueue (mgr (dispatch queue w))
     = match k with
       | O => tradeQueue (mgr w)
       | S _ => skipn k queue
       end.
Proof.
  revert w. induction queue as [|job rest IH]; intros w; cbn zeta.
  - cbn [List.length dispatch].
    replace (Z.to_nat _) with 0%nat by lia.
    cbn. rewrite app_nil_r. repeat split. lia.
  - cbn [dispatch].
    destruct (currentTrades (mgr w) <? MAX_CONCURRENT_TRADES (mgr w))%Z eqn:E.
    + apply Z.ltb_lt in E.
      specialize (IH (launch job rest w)). cbn zeta in IH.
      cbn [launch with_mgr set_inFlight mgr set_currentTrades set_tradeQueue
           currentTrades MAX_CONCURRENT_TRADES inFlight tradeQueue] in IH.
      destruct IH as (I1 & I2 & I3).
      set (k' := Z.to_nat
                   (Z.min (Z.of_nat (List.length rest))
                      (MAX_CONCURRENT_TRADES (mgr w)
                       - (currentTrades (mgr w) + 1)))) in *.
      replace (Z.to_nat _) with (S k')
        by (unfold k'; cbn [List.length]; lia).
      cbn [firstn map skipn]. rewrite I1, I2, I3.
      rewrite <- app_assoc. cbn [app]. repeat split.
      * lia.
      * destruct k'; reflexivity.
    + apply Z.ltb_ge in E.
      replace (Z.to_nat _) with 0%nat by lia.
      cbn. rewrite app_nil_r. repeat split. lia.
Qed.

Lemma processTradeQueue_shape (w : World) :
  inFlight (processTradeQueue w)
  = inFlight w
    ++ map (fun j => executeTrade_begin (mgr w) (analysis j))
           (firstn (free_slots w) (tradeQueue (mgr w)))
  /\ tradeQueue (mgr (processTradeQueue w))
     = skipn (free_slots w) (tradeQueue (mgr w))
  /\ currentTrades (mgr (processTradeQueue w))
     = (currentTrades (mgr w) + Z.of_nat (free_slots w))%Z.
Proof.
  unfold processTradeQueue, free_slots.
  destruct (dispatch_shape (tradeQueue (mgr w)) w) as (A & B & C).
  cbn zeta in A, B, C. repeat split; try assumption.
  rewrite C. destruct (Z.to_nat _); reflexivity.
Qed.

(** X1.  One call of [processTradeQueue] launches the first [k] jobs of
    the queue, in queue order, and leaves the others queued in their
    order, where [k] is the smaller of the queue length and the number of
    free slots ([0] when the counter is at or above the maximum). *)
Theorem processTradeQueue_fifo :
  forall w : World,
    inFlight (processTradeQueue w)
    = inFlight w
      ++ map (fun j => executeTrade_begin (mgr w) (analysis j))
             (firstn (free_slots w) (tradeQueue (mgr w)))
    /\ tradeQueue (mgr (processTradeQueue w))
       = skipn (free_slots w) (tradeQueue (mgr w))
    /\ currentTrades (mgr (processTradeQueue w))
       = (currentTrades (mgr w) + Z.of_nat (free_slots w))%Z.
Proof.
  intros w. unfold processTradeQueue, free_slots.
  destruct (dispatch_shape (tradeQueue (mgr w)) w) as (A & B & C).
  cbn zeta in A, B, C. split; [exact A|]. split; [|exact B].
  rewrite C. destruct (Z.to_nat _); reflexivity.
Qed.

(** X2.  A tick that arrives while the in-flight counter is at the
    maximum only appends its job to the tail of the queue: nothing is
    launched and the counter does not move. *)
Theorem handleTick_at_capacity :
  forall (w : World) (s : TradingSession) (tick : Tick) (a : Analysis) (now : Z),
    isActive (mgr w) = true -> session (mgr w) = Some s ->
    (MAX_CONCURRENT_TRADES (mgr w) <= currentTrades (mgr w))%Z ->
    tradeQueue (mgr (handleTick tick (Some a) now w))
    = tradeQueue (mgr w) ++ [mkJob now a tick]
    /\ inFlight (handleTick tick (Some a) now w) = inFlight w
    /\ currentTrades (mgr (handleTick tick (Some a) now w))
       = currentTrades (mgr w).
Proof.
  intros w s tick a now Ha Hs Hfull. unfold handleTick. rewrite Ha, Hs.
  match goal with
  | |- context [processTradeQueue ?x] =>
      destruct (processTradeQueue_shape x) as (A & B & C);
      assert (K : free_slots x = 0%nat) by (unfold free_slots; cbn; lia)
  end.
  rewrite A, B, C, K. cbn. rewrite app_nil_r. repeat split; try lia.
Qed.

Lemma handleTick_at_capacity_witness :
  let w := run [FeedTick (mkTick (Num 100) 1) (Some analysis0) 1;
                FeedTick (mkTick (Num 101) 2) (Some analysis0) 2;
                FeedTick (mkTick (Num 102) 3) (Some analysis0) 3]
               (started config0) in
  tradeQueue (mgr (handleTick (mkTick (Num 103) 4) (Some analysis0) 4 w))
  = tradeQueue (mgr w) ++ [mkJob 4 analysis0 (mkTick (Num 103) 4)]
  /\ inFlight (handleTick (mkTick (Num 103) 4) (Some analysis0) 4 w) = inFlight w
  /\ currentTrades (mgr (handleTick (mkTick (Num 103) 4) (Some analysis0) 4 w))
     = currentTrades (mgr w).
Proof.
  cbv zeta.
  apply (handleTick_at_capacity _ session0); try reflexivity; cbn; lia.
Defined.

(** X3.  When an execution completes while the counter is at the maximum
    and jobs are waiting, the [finally] callback launches exactly the head
    of the queue: the counter is back at the maximum and the other jobs
    keep their order. *)
Theorem job_finally_at_capacity :
  forall (w : World) (job : Job) (rest : list Job),
    currentTrades (mgr w) = MAX_CONCURRENT_TRADES (mgr w) ->
    tradeQueue (mgr w) = job :: rest ->
    tradeQueue (mgr (job_finally w)) = rest
    /\ inFlight (job_finally w)
       = inFlight w ++ [executeTrade_begin (mgr w) (analysis job)]
    /\ currentTrades (mgr (job_finally w)) = MAX_CONCURRENT_TRADES (mgr w).
Proof.
  intros w job rest Hc Hq. unfold job_finally.
  cbn [with_mgr mgr set_currentTrades tradeQueue currentTrades
       MAX_CONCURRENT_TRADES].
  rewrite Hq.
  assert (E : (currentTrades (mgr w) - 1 <? MAX_CONCURRENT_TRADES (mgr w))%Z
              = true) by (apply Z.ltb_lt; lia).
  rewrite E.
  match goal with
  | |- context [processTradeQueue ?x] =>
      destruct (processTradeQueue_shape x) as (A & B & C);
      assert (K : free_slots x = 1%nat)
        by (unfold free_slots; cbn; rewrite Hq; cbn [List.length]; lia)
  end.
  rewrite A, B, C, K. cbn. rewrite Hq. cbn. repeat split; try lia.
Qed.

Lemma job_finally_at_capacity_witness :
  let w := run [FeedTick (mkTick (Num 100) 1) (Some analysis0) 1;
                FeedTick (mkTick (Num 101) 2) (Some analysis0) 2;
                FeedTick (mkTick (Num 102) 3) (Some analysis0) 3;
                FeedTick (mkTick (Num 103) 4) (Some analysis0) 4]
               (started config0) in
  tradeQueue (mgr (job_finally w)) = []
  /\ inFlight (job_finally w)
     = inFlight w
       ++ [executeTrade_begin (mgr w)
             (analysis (mkJob 4 analysis0 (mkTick (Num 103) 4)))]
  /\ currentTrades (mgr (job_finally w)) = MAX_CONCURRENT_TRADES (mgr w).
Proof.
  cbv zeta.
  apply (job_finally_at_capacity _ (mkJob 4 analysis0 (mkTick (Num 103) 4)) []);
    reflexivity.
Defined.

(** ** An inactive manager *)

Lemma calm_refl (w : World) : calm w w.
Proof. repeat split; auto. Qed.

Lemma calm_trans (w1 w2 w3 : World) : calm w1 w2 -> calm w2 w3 -> calm w1 w3.
Proof.
  intros (A1 & A2 & A3) (B1 & B2 & B3). repeat split.
  - auto.
  - lia.
  - congruence.
Qed.

Lemma stopSession_calm (reason : string) (w : World) :
  calm w (stopSession reason w).
Proof.
  unfold stopSession. destruct (_ && _); [apply calm_refl|].
  repeat split. cbn. lia.
Qed.

Lemma stopSession_resume_calm (reason : string) (now : Z) (th : bool)
    (w : World) :
  calm w (stopSession_resume reason now th w).
Proof.
  unfold stopSession_resume. cbn.
  destruct (session (mgr w)); [|repeat split; cbn; lia].
  destruct th; [repeat split; cbn; lia|].
  destruct (session_doc (db w)); repeat split; cbn; lia.
Qed.

Lemma checkRiskLimits_calm (w : World) : calm w (checkRiskLimits w).
Proof.
  unfold checkRiskLimits.
  destruct (isActive (mgr w)); [|apply calm_refl].
  destruct (session (mgr w)); [|apply calm_refl].
  destruct (RiskManager.checkSessionLimits _);
    [apply calm_refl | apply stopSession_calm].
Qed.

Lemma recordTrade_calm (tr : TradeResult) (a : Analysis) (f : Faults)
    (w : World) :
  calm w (snd (recordTrade tr a f w)).
Proof.
  unfold recordTrade. destruct (session (mgr w)); [|apply calm_refl].
  destruct (fail_create f); [apply calm_refl|]. repeat split; auto.
Qed.

Lemma updateSessionStats_calm (tr : TradeResult) (f : Faults) (w : World) :
  calm w (snd (updateSessionStats tr f w)).
Proof.
  unfold updateSessionStats.
  destruct (session (mgr w)) as [s|]; [|apply calm_refl].
  destruct (fail_update f); [apply calm_refl|].
  destruct (session_doc (db w)) as [d|]; [|apply calm_refl].
  destruct (fail_save f); [repeat split; auto|].
  cbn [snd].
  match goal with
  | |- calm _ (with_mgr _ (checkRiskLimits ?x)) =>
      destruct (checkRiskLimits_calm x) as (A1 & A2 & A3)
  end.
  repeat split; cbn in *; auto.
Qed.

Lemma recordOutcome_calm (tr : TradeResult) (a : Analysis) (f : Faults)
    (w : World) :
  calm w (snd (recordOutcome tr a f w)).
Proof.
  unfold recordOutcome, withTransaction.
  pose proof (recordTrade_calm tr a f w) as H1.
  destruct (recordTrade tr a f w) as [[e|] w1]; cbn [snd] in *.
  - destruct H1 as (A1 & A2 & A3). repeat split; auto.
  - pose proof (updateSessionStats_calm tr f w1) as H2.
    destruct (updateSessionStats tr f w1) as [[e|] w2]; cbn [snd] in *;
      destruct (calm_trans _ _ _ H1 H2) as (A1 & A2 & A3).
    + repeat split; auto.
    + destruct (fail_commit f); repeat split; auto.
Qed.

Lemma executeTrade_resume_calm (e : Execution) (venue : VenueOutcome)
    (f : Faults) (w : World) :
  calm w (snd (executeTrade_resume e venue f w)).
Proof.
  unfold executeTrade_resume.
  destruct e as [|p a]; [apply calm_refl|].
  destruct venue as [tr|]; [apply recordOutcome_calm | apply calm_refl].
Qed.

Lemma deliver_all_calm (effs : list MarketDataStream.Effect) (w : World) :
  calm w (deliver_all effs w).
Proof.
  unfold deliver_all. revert w.
  induction effs as [|eff effs IH]; intros w; simpl; [apply calm_refl|].
  eapply calm_trans; [|apply IH].
  unfold deliver. destruct eff as [[| |]|tm]; try apply calm_refl.
  - destruct (listening w); [apply stopSession_calm | apply calm_refl].
  - repeat split; auto.
Qed.

Lemma on_feed_calm
    (method : MarketDataStream.t -> MarketDataStream.t * list MarketDataStream.Effect)
    (w : World) :
  calm w (on_feed method w).
Proof.
  unfold on_feed. destruct (method _) as [feed effs].
  eapply calm_trans; [|apply deliver_all_calm]. repeat split; auto.
Qed.

Lemma executeTrade_begin_inactive (m : Manager) (a : Analysis) :
  isActive m = false -> executeTrade_begin m a = Returned.
Proof. intros H. unfold executeTrade_begin. now rewrite H. Qed.

Lemma count_awaiting_remove_nth (i : nat) (l : list Execution) :
  (count_awaiting (remove_nth i l) <= count_awaiting l)%nat.
Proof.
  unfold count_awaiting. revert i.
  induction l as [|e l IH]; intros [|i]; simpl; try lia.
  - destruct (awaiting e); simpl; lia.
  - specialize (IH i). destruct (awaiting e); simpl; lia.
Qed.

Lemma count_awaiting_returned (l : list Execution) (m : Manager)
    (jobs : list Job) :
  isActive m = false ->
  count_awaiting
    (l ++ map (fun j => executeTrade_begin m (analysis j)) jobs)
  = count_awaiting l.
Proof.
  intros H. unfold count_awaiting. rewrite filter_app, length_app.
  induction jobs as [|j jobs IH]; simpl; [lia|].
  rewrite (executeTrade_begin_inactive m _ H). simpl. exact IH.
Qed.

Lemma dispatch_isActive (queue : list Job) (w : World) :
  isActive (mgr (dispatch queue w)) = isActive (mgr w).
Proof.
  revert w. induction queue as [|job rest IH]; intros w; simpl; [reflexivity|].
  destruct (_ <? _)%Z; [|reflexivity]. now rewrite IH.
Qed.

Lemma job_finally_inactive (w : World) :
  isActive (mgr w) = false ->
  isActive (mgr (job_finally w)) = false
  /\ count_awaiting (inFlight (job_finally w)) = count_awaiting (inFlight w)
  /\ (List.length (tradeQueue (mgr (job_finally w)))
      <= List.length (tradeQueue (mgr w)))%nat.
Proof.
  intros H. unfold job_finally.
  set (w1 := with_mgr (fun m => set_currentTrades (currentTrades m - 1)%Z m) w).
  assert (H1 : isActive (mgr w1) = false) by exact H.
  assert (Q1 : tradeQueue (mgr w1) = tradeQueue (mgr w)) by reflexivity.
  assert (F1 : inFlight w1 = inFlight w) by reflexivity.
  assert (idle : isActive (mgr w1) = false
                 /\ count_awaiting (inFlight w1) = count_awaiting (inFlight w)
                 /\ (List.length (tradeQueue (mgr w1))
                     <= List.length (tradeQueue (mgr w)))%nat).
  { rewrite F1, Q1. repeat split; [exact H1 | lia]. }
  destruct (tradeQueue (mgr w1)) as [|j q] eqn:Q; [rewrite Q; exact idle|].
  destruct (_ <? _)%Z; [|rewrite Q; exact idle].
  destruct (processTradeQueue_shape w1) as (A & B & C).
  unfold processTradeQueue at 1. rewrite dispatch_isActive.
  rewrite A, B, F1.
  rewrite count_awaiting_returned by exact H1.
  rewrite length_skipn, Q, <- Q1. repeat split; [exact H1 | lia].
Qed.

Lemma step_inactive (ev : Event) (w : World) :
  is_start ev = false -> isActive (mgr w) = false ->
  isActive (mgr (step ev w)) = false
  /\ (count_awaiting (inFlight (step ev w)) <= count_awaiting (inFlight w))%nat
  /\ (List.length (tradeQueue (mgr (step ev w)))
      <= List.length (tradeQueue (mgr w)))%nat.
Proof.
  intros Hev H.
  assert (from_calm : forall w', calm w w' ->
            isActive (mgr w') = false
            /\ (count_awaiting (inFlight w') <= count_awaiting (inFlight w))%nat
            /\ (List.length (tradeQueue (mgr w'))
                <= List.length (tradeQueue (mgr w)))%nat).
  { intros w' (A1 & A2 & A3). rewrite A3. repeat split; auto. }
  destruct ev as [th|tick a now|code random|i|i venue f|reason|i now th];
    cbn [step]; try discriminate Hev.
  - rewrite H, andb_false_r. repeat split; auto.
  - apply from_calm, on_feed_calm.
  - destruct (nth_error (timers w) i) as [[d|d]|];
      [| |repeat split; auto];
      apply from_calm; (eapply calm_trans; [|apply on_feed_calm]);
      repeat split; auto.
  - destruct (nth_error (inFlight w) i) as [e|]; [|repeat split; auto].
    unfold settle.
    destruct (executeTrade_resume_calm e venue f
                (set_inFlight (remove_nth i (inFlight w)) w)) as (A1 & A2 & A3).
    cbn [set_inFlight mgr inFlight] in A1, A2, A3.
    destruct (job_finally_inactive _ (A1 H)) as (B1 & B2 & B3).
    rewrite B2, A3. repeat split; auto.
    + apply count_awaiting_remove_nth.
    + lia.
  - apply from_calm, stopSession_calm.
  - destruct (nth_error (stopping w) i) as [reason|]; [|repeat split; auto].
    apply from_calm. eapply calm_trans; [|apply stopSession_resume_calm].
    repeat split; auto.
Qed.

(** X4.  While [isActive] is false and [startSession] is not called, no
    trade reaches the venue: whatever ticks, feed events, completions and
    stops follow, the manager stays inactive, the number of executions
    suspended on the venue call does not grow and neither does the
    queue. *)
Theorem inactive_manager_sends_nothing :
  forall (evs : list Event) (w : World),
    isActive (mgr w) = false ->
    forallb (fun ev => negb (is_start ev)) evs = true ->
    isActive (mgr (run evs w)) = false
    /\ (count_awaiting (inFlight (run evs w)) <= count_awaiting (inFlight w))%nat
    /\ (List.length (tradeQueue (mgr (run evs w)))
        <= List.length (tradeQueue (mgr w)))%nat.
Proof.
  induction evs as [|ev evs IH]; intros w H Hevs; cbn [run fold_left].
  - repeat split; auto.
  - cbn [forallb] in Hevs. apply andb_true_iff in Hevs.
    destruct Hevs as (Hev & Hevs). apply negb_true_iff in Hev.
    destruct (step_inactive ev w Hev H) as (A1 & A2 & A3).
    destruct (IH (step ev w) A1 Hevs) as (B1 & B2 & B3).
    unfold run in B1, B2, B3. repeat split; [assumption | lia | lia].
Qed.

Lemma inactive_manager_sends_nothing_witness :
  let w := run [FeedTick (mkTick (Num 100) 1) (Some analysis0) 1;
                Stop "user_request"] (started config0) in
  let evs := [FeedTick (mkTick (Num 101) 2) (Some analysis0) 2;
              Settle 0 VenueThrows no_faults;
              StopResumes 0 50 false;
              FeedTick (mkTick (Num 102) 3) (Some analysis0) 3] in
  isActive (mgr (run evs w)) = false
  /\ (count_awaiting (inFlight (run evs w)) <= count_awaiting (inFlight w))%nat
  /\ (List.length (tradeQueue (mgr (run evs w)))
      <= List.length (tradeQueue (mgr w)))%nat.
Proof.
  cbv zeta. apply inactive_manager_sends_nothing; reflexivity.
Defined.

(** ** The session handle and the stored session *)

Lemma same_session_change (c : bool) (w w' : World) :
  same_session w w' -> session_change c w w'.
Proof. intros (A & B). apply sc_same; [assumption | now rewrite B]. Qed.

Lemma session_change_then_same (c : bool) (w w1 w2 : World) :
  session_change c w w1 -> same_session w1 w2 -> session_change c w w2.
Proof.
  intros H (A & B).
  destruct H as [H1 H2 | tr s d H1 H2 H3 H4 | r now s d H1 H2 H3 H4 | H1 H2].
  - apply sc_same; rewrite ?A, ?B; assumption.
  - apply (sc_settled c w w2 tr s d); rewrite ?A, ?B; assumption.
  - apply (sc_closed c w w2 r now s d); rewrite ?A, ?B; assumption.
  - apply sc_started; rewrite ?A, ?B; assumption.
Qed.

Lemma deliver_all_session (effs : list MarketDataStream.Effect) (w : World) :
  same_session w (deliver_all effs w).
Proof.
  unfold deliver_all. revert w.
  induction effs as [|eff effs IH]; intros w; simpl; [split; reflexivity|].
  destruct (IH (deliver eff w)) as (A & B).
  assert (D : same_session w (deliver eff w)).
  { unfold deliver. destruct eff as [[| |]|tm]; try (split; reflexivity).
    destruct (listening w); [apply stopSession_session | split; reflexivity]. }
  destruct D as (D1 & D2). split; congruence.
Qed.

Lemma on_feed_session
    (method : MarketDataStream.t -> MarketDataStream.t * list MarketDataStream.Effect)
    (w : World) :
  same_session w (on_feed method w).
Proof.
  unfold on_feed. destruct (method _) as [feed effs].
  match goal with
  | |- same_session _ (deliver_all ?e ?x) =>
      destruct (deliver_all_session e x) as (A & B)
  end.
  split; [rewrite A | rewrite B]; reflexivity.
Qed.

Lemma recordOutcome_change (tr : TradeResult) (a : Analysis) (f : Faults)
    (w : World) :
  session_change (negb (fail_commit f)) w (snd (recordOutcome tr a f w)).
Proof.
  unfold recordOutcome, withTransaction, recordTrade.
  destruct (session (mgr w)) as [s|] eqn:Hs.
  2:{ unfold updateSessionStats. rewrite Hs.
      destruct (fail_commit f); apply sc_same; reflexivity. }
  destruct (fail_create f); [apply sc_same; reflexivity|].
  unfold updateSessionStats. cbn [set_db mgr db session_doc]. rewrite Hs.
  destruct (fail_update f); [apply sc_same; reflexivity|].
  destruct (session_doc (db w)) as [d|] eqn:Hd.
  2:{ destruct (fail_commit f); apply sc_same; cbn; auto. }
  destruct (fail_save f); [apply sc_same; reflexivity|].
  match goal with
  | |- context [checkRiskLimits ?x] =>
      remember x as wx eqn:Ewx;
      destruct (checkRiskLimits_session wx) as (A & B)
  end.
  apply (sc_settled _ _ _ tr s d); try assumption.
  - destruct (fail_commit f); cbn [snd set_db with_mgr mgr session
      set_lastTradeFailed]; rewrite A, Ewx; reflexivity.
  - destruct (fail_commit f);
      cbn [snd set_db with_mgr mgr db session set_lastTradeFailed negb].
    + right. split; [reflexivity | exact Hd].
    + left. rewrite B, Ewx. reflexivity.
Qed.

Lemma stopSession_resume_change (c : bool) (reason : string) (now : Z)
    (th : bool) (w : World) :
  session_change c w (stopSession_resume reason now th w).
Proof.
  unfold stopSession_resume. cbn.
  destruct (session (mgr w)) as [s|] eqn:Hs;
    [|apply sc_same; cbn; auto].
  destruct th; [apply sc_same; cbn; auto|].
  destruct (session_doc (db w)) as [d|] eqn:Hd;
    [|apply sc_same; cbn; auto].
  apply (sc_closed _ _ _ reason now s d); auto.
Qed.

Lemma startSession_change (th : bool) (w : World) :
  session_change (negb th) w (startSession th w).
Proof.
  unfold startSession.
  destruct (isActive (mgr w)); [apply sc_same; reflexivity|].
  destruct th.
  - apply sc_started; cbn; auto.
  - unfold connectMarketData.
    match goal with
    | |- session_change _ _ (with_mgr _ (on_feed ?m ?x)) =>
        remember x as wx eqn:Ewx;
        destruct (on_feed_session m wx) as (A & B)
    end.
    apply sc_started; cbn [with_mgr mgr db session set_isActive].
    + rewrite A, Ewx. reflexivity.
    + left. rewrite B, Ewx. reflexivity.
Qed.

Lemma step_change (ev : Event) (w : World) :
  session_change (commits ev) w (step ev w).
Proof.
  destruct ev as [th|tick a now|code random|i|i venue f|reason|i now th];
    cbn [step commits].
  - apply startSession_change.
  - destruct (listening w && isActive (mgr w)); [|apply sc_same; reflexivity].
    unfold handleTick.
    destruct (isActive (mgr w)); [|apply sc_same; reflexivity].
    destruct (session (mgr w)); [|apply sc_same; reflexivity].
    destruct a as [an|]; [|apply sc_same; reflexivity].
    unfold processTradeQueue.
    match goal with
    | |- session_change _ _ (dispatch ?q ?x) =>
        destruct (dispatch_session q x) as (A & B)
    end.
    apply sc_same; [rewrite A | rewrite B]; reflexivity.
  - apply same_session_change, on_feed_session.
  - destruct (nth_error (timers w) i) as [[d|d]|];
      [| |apply sc_same; reflexivity];
      match goal with
      | |- session_change _ _ (on_feed ?m ?x) =>
          destruct (on_feed_session m x) as (A & B)
      end;
      (apply sc_same; [rewrite A | rewrite B]; reflexivity).
  - destruct (nth_error (inFlight w) i) as [e|]; [|apply sc_same; reflexivity].
    unfold settle.
    eapply session_change_then_same; [|apply job_finally_session].
    unfold executeTrade_resume.
    destruct e as [|p a]; [apply sc_same; reflexivity|].
    destruct venue as [tr|]; [|apply sc_same; reflexivity].
    pose proof (recordOutcome_change tr a f
                  (set_inFlight (remove_nth i (inFlight w)) w)) as H.
    destruct H as [H1 H2 | tr' s d H1 H2 H3 H4 | r now s d H1 H2 H3 H4 | H1 H2].
    + apply sc_same; assumption.
    + apply (sc_settled _ _ _ tr' s d); assumption.
    + apply (sc_closed _ _ _ r now s d); assumption.
    + apply sc_started; assumption.
  - apply same_session_change, stopSession_session.
  - destruct (nth_error (stopping w) i) as [reason|];
      [|apply sc_same; reflexivity].
    pose proof (stopSession_resume_change true reason now th
                  (set_stopping (remove_nth i (stopping w)) w)) as H.
    destruct H as [H1 H2 | tr' s d H1 H2 H3 H4 | r n s d H1 H2 H3 H4 | H1 H2].
    + apply sc_same; assumption.
    + apply (sc_settled _ _ _ tr' s d); assumption.
    + apply (sc_closed _ _ _ r n s d); assumption.
    + apply sc_started; assumption.
Qed.

Lemma settled_session_ok (tr : TradeResult) (s d : TradingSession) :
  counters_ok d -> counters_ok (settled_session tr s d).
Proof.
  unfold counters_ok, settled_session. cbn.
  destruct (result tr =? "win")%string; lia.
Qed.

Lemma step_counters_ok (ev : Event) (w : World) :
  (forall s, session (mgr w) = Some s -> counters_ok s) ->
  (forall d, session_doc (db w) = Some d -> counters_ok d) ->
  (forall s, session (mgr (step ev w)) = Some s -> counters_ok s)
  /\ (forall d, session_doc (db (step ev w)) = Some d -> counters_ok d).
Proof.
  intros Hs Hd.
  destruct (step_change ev w)
    as [H1 H2 | tr s d H1 H2 H3 H4 | r now s d H1 H2 H3 H4 | H1 H2].
  - rewrite H1, H2. split; assumption.
  - pose proof (settled_session_ok tr s d (Hd d H2)) as K. split.
    + intros u Hu. rewrite H3 in Hu. injection Hu as <-. exact K.
    + intros u Hu. destruct H4 as [H4 | (_ & H4)]; rewrite H4 in Hu;
        injection Hu as <-; [exact K | exact (Hd d H2)].
  - assert (K : counters_ok (closed_session r now s d)) by exact (Hd d H2).
    split; intros u Hu; rewrite ?H3, ?H4 in Hu; injection Hu as <-; exact K.
  - assert (K : counters_ok (new_session (config (mgr w))))
      by (unfold counters_ok; cbn; lia).
    split.
    + intros u Hu. rewrite H1 in Hu. injection Hu as <-. exact K.
    + intros u Hu. destruct H2 as [H2 | (_ & H2)]; rewrite H2 in Hu.
      * injection Hu as <-. exact K.
      * exact (Hd u Hu).
Qed.

Lemma run_counters_ok (evs : list Event) (w : World) :
  (forall s, session (mgr w) = Some s -> counters_ok s) ->
  (forall d, session_doc (db w) = Some d -> counters_ok d) ->
  (forall s, session (mgr (run evs w)) = Some s -> counters_ok s)
  /\ (forall d, session_doc (db (run evs w)) = Some d -> counters_ok d).
Proof.
  revert w. induction evs as [|ev evs IH]; intros w Hs Hd; cbn [run fold_left].
  - split; assumption.
  - destruct (step_counters_ok ev w Hs Hd) as (A & B). exact (IH _ A B).
Qed.

(** X5.  In every world reached from a new manager with an empty store,
    the session handle and the stored session document have
    [winning_trades <= total_trades]. *)
Theorem winning_trades_at_most_total :
  forall (cfg : Config) (feed : MarketDataStream.t) (trades : list Trade)
         (evs : list Event),
    let w := run evs (boot cfg feed (mkDB None trades)) in
    (forall s, session (mgr w) = Some s ->
               (winning_trades s <= total_trades s)%nat)
    /\ (forall d, session_doc (db w) = Some d ->
                  (winning_trades d <= total_trades d)%nat).
Proof.
  intros cfg feed trades evs. cbv zeta.
  apply run_counters_ok; cbn; discriminate.
Qed.

Lemma win_rate_bounds (s : TradingSession) :
  counters_ok s -> exists r, win_rate s = Num r /\ 0 <= r /\ r <= 100.
Proof.
  unfold counters_ok, win_rate. intros H.
  destruct (total_trades s =? 0)%nat eqn:E.
  - exists 0. repeat split; unfold Qle; simpl; lia.
  - apply Nat.eqb_neq in E. eexists. split; [reflexivity|].
    set (a := inject_Z (Z.of_nat (winning_trades s))).
    set (b := inject_Z (Z.of_nat (total_trades s))).
    assert (Ha : 0 <= a) by (unfold a, Qle; simpl; lia).
    assert (Hb : 0 < b) by (unfold b, Qlt; simpl; lia).
    assert (Hab : a <= b) by (unfold a, b; rewrite <- Zle_Qle; lia).
    assert (L : 0 <= a / b).
    { apply Qle_shift_div_l; [exact Hb|]. lra. }
    assert (U : a / b <= 1).
    { apply Qle_shift_div_r; [exact Hb|]. lra. }
    split; lra.
Qed.

(** X7.  In every world reached from a new manager with an empty store,
    the virtual [win_rate] of the stored session is a number between 0
    and 100; it is 0 while no trade has been counted. *)
Theorem win_rate_between_0_and_100 :
  forall (cfg : Config) (feed : MarketDataStream.t) (trades : list Trade)
         (evs : list Event) (d : TradingSession),
    session_doc (db (run evs (boot cfg feed (mkDB None trades)))) = Some d ->
    (exists r, win_rate d = Num r /\ 0 <= r /\ r <= 100)
    /\ (total_trades d = 0%nat -> win_rate d = Num 0).
Proof.
  intros cfg feed trades evs d Hd. split.
  - apply win_rate_bounds.
    destruct (run_counters_ok evs (boot cfg feed (mkDB None trades)))
      as (_ & K); [cbn; discriminate | cbn; discriminate |].
    exact (K d Hd).
  - intros H. unfold win_rate. now rewrite H.
Qed.

Lemma win_rate_between_0_and_100_witness :
  exists r,
    win_rate (settled_session win_result session0 session0) = Num r
    /\ 0 <= r /\ r <= 100.
Proof.
  apply (win_rate_between_0_and_100
           config0 MarketDataStream.constructor []
           (Start false
            :: one_tick ++ [Settle 0 (VenueReturns win_result) no_faults])).
  reflexivity.
Defined.

(** ** Settlements: accounting, risk stop, martingale flag *)

(** X8.  Starting from a handle that agrees with the store, with a
    stored balance that is a number and a stored status the schema admits,
    any sequence of fault-free settlements of results with numeric payout
    and stake leaves handle and store equal, with [total_trades] raised by
    the number of results, [winning_trades] by the number of wins and
    [consecutive_losses] equal to the run of losses since the last win;
    the balance stays a number, [initial_balance] and [status] are never
    touched. *)
Theorem settlements_account :
  forall (trs : list TradeResult) (w : World) (d : TradingSession) (b : Q),
    session (mgr w) = Some d -> session_doc (db w) = Some d ->
    final_balance d = Num b -> schema_status (status d) = true ->
    Forall (fun tr => exists P K, payout tr = Num P /\ stake tr = Num K) trs ->
    exists u,
      session (mgr (settle_all trs w)) = Some u
      /\ session_doc (db (settle_all trs w)) = Some u
      /\ total_trades u = (total_trades d + List.length trs)%nat
      /\ winning_trades u
         = (winning_trades d + List.length (filter is_win trs))%nat
      /\ consecutive_losses u = fold_left streak trs (consecutive_losses d)
      /\ (exists b', final_balance u = Num b')
      /\ initial_balance u = initial_balance d
      /\ status u = status d.
Proof.
  induction trs as [|tr trs IH]; intros w d b Hs Hd Hb Hst Hn.
  - exists d. cbn. repeat split; try assumption; try lia. now exists b.
  - unfold settle_all. cbn [fold_left]. fold (settle_all trs).
    destruct (updateSessionStats_ok tr w d d Hs Hd)
      as (w' & u & E & H1 & H2 & _ & H3 & H4 & H5 & H6 & H7 & H8 & _).
    rewrite E. cbn [snd].
    inversion Hn as [|x l (P & K & HP & HK) Hrest]; subst x l.
    assert (Hb' : exists b', final_balance u = Num b').
    { rewrite H6, Hb. unfold profitOrLoss. rewrite HP, HK.
      destruct (result tr =? "win")%string; eexists; reflexivity. }
    destruct Hb' as (b' & Hb').
    assert (Hst' : schema_status (status u) = true) by (now rewrite H8).
    destruct (IH w' u b' H1 H2 Hb' Hst' Hrest)
      as (v & I1 & I2 & I3 & I4 & I5 & I6 & I7 & I8).
    exists v. split; [exact I1|]. split; [exact I2|].
    cbn [List.length filter fold_left].
    rewrite I3, I4, I5, I7, I8, H3, H4, H5, H7, H8.
    unfold streak at 2. unfold is_win at 2.
    split; [lia|]. split.
    { destruct (result tr =? "win")%string; cbn [List.length]; lia. }
    split; [reflexivity|]. split; [exact I6|]. split; reflexivity.
Qed.

Lemma settlements_account_witness :
  exists u,
    session (mgr (settle_all [loss_result; loss_result; win_result; loss_result]
                             (started config0))) = Some u
    /\ total_trades u = 4%nat
    /\ winning_trades u = 1%nat
    /\ consecutive_losses u = 1%nat.
Proof.
  destruct (settlements_account
              [loss_result; loss_result; win_result; loss_result]
              (started config0) session0 10000)
    as (u & H1 & _ & H3 & H4 & H5 & _); try reflexivity.
  - repeat constructor; eexists; eexists; split; reflexivity.
  - exists u. repeat split; assumption.
Defined.

Lemma updateSessionStats_record (tr : TradeResult) (w : World)
    (s d : TradingSession) :
  session (mgr w) = Some s -> session_doc (db w) = Some d ->
  exists w',
    updateSessionStats tr no_faults w = (None, w')
    /\ session (mgr w') = Some (settled_session tr s d)
    /\ session_doc (db w') = Some (settled_session tr s d)
    /\ trade_docs (db w') = trade_docs (db w)
    /\ lastTradeFailed (mgr w') = le (profitOrLoss tr) (Num 0).
Proof.
  intros Hs Hd. unfold updateSessionStats. rewrite Hs.
  cbn [no_faults fail_update]. rewrite Hd. cbn [fail_save].
  eexists. split; [reflexivity|].
  match goal with
  | |- context [checkRiskLimits ?x] =>
      destruct (checkRiskLimits_session x) as (A & B)
  end.
  cbn [with_mgr mgr db set_lastTradeFailed session lastTradeFailed].
  rewrite A, B. cbn. repeat split.
Qed.

Lemma checkRiskLimits_on_active (w : World) (u : TradingSession) :
  isActive (mgr w) = true -> session (mgr w) = Some u ->
  let limits :=
    RiskManager.mkLimits (max_consecutive_losses (config (mgr w)))
                         (daily_loss_limit_percentage (config (mgr w))) in
  (stop_condition (initial_balance u) (final_balance u)
                  (consecutive_losses u) limits ->
   checkRiskLimits w
   = set_stopping (stopping w ++ ["risk_limit_breach"%string])
       (with_mgr (fun m => set_tradeQueue [] (set_isActive false m)) w))
  /\ (~ stop_condition (initial_balance u) (final_balance u)
                       (consecutive_losses u) limits ->
      checkRiskLimits w = w).
Proof.
  intros Ha Hu limits. unfold checkRiskLimits. rewrite Ha, Hu.
  pose proof (checkSessionLimits_stop_if (initial_balance u) (final_balance u)
                (consecutive_losses u) limits) as Hif.
  pose proof (checkSessionLimits_stop_only_if (initial_balance u)
                (final_balance u) (consecutive_losses u) limits) as Honly.
  unfold limits in *.
  destruct (RiskManager.checkSessionLimits _) eqn:E; split; intros H.
  - specialize (Hif H). discriminate Hif.
  - reflexivity.
  - unfold stopSession. rewrite Ha. reflexivity.
  - exfalso. apply H, Honly. reflexivity.
Qed.

(** X10.  After a fault-free [updateSessionStats] on an active manager,
    for a result with numeric payout and stake on a session whose stored
    balance is a number and whose stored status the schema admits: when
    [max_consecutive_losses] is configured and not 0 and the updated
    [consecutive_losses] has reached it, the session is stopped for risk
    (the manager is inactive, the queue is emptied and a
    [stopSession('risk_limit_breach')] is under way); when neither limit
    is configured (absent, 0 or [NaN]), the manager stays active and queue
    and pending stops are untouched. *)
Theorem updateSessionStats_risk_stop :
  forall (tr : TradeResult) (w : World) (s d : TradingSession) (b P K : Q),
    isActive (mgr w) = true ->
    session (mgr w) = Some s -> session_doc (db w) = Some d ->
    final_balance d = Num b -> payout tr = Num P -> stake tr = Num K ->
    schema_status (status d) = true ->
    let u := settled_session tr s d in
    let w' := snd (updateSessionStats tr no_faults w) in
    (forall q,
       max_consecutive_losses (config (mgr w)) = Some (Num q) ->
       ~ q == 0 -> q <= inject_Z (Z.of_nat (consecutive_losses u)) ->
       isActive (mgr w') = false
       /\ tradeQueue (mgr w') = []
       /\ stopping w' = stopping w ++ ["risk_limit_breach"%string])
    /\ (RiskManager.configured (max_consecutive_losses (config (mgr w))) = None ->
        RiskManager.configured (daily_loss_limit_percentage (config (mgr w)))
        = None ->
        isActive (mgr w') = true
        /\ tradeQueue (mgr w') = tradeQueue (mgr w)
        /\ stopping w' = stopping w).
Proof.
  intros tr w s d b P K Ha Hs Hd Hb HP HK Hst. cbv zeta.
  unfold updateSessionStats. rewrite Hs.
  cbn [no_faults fail_update]. rewrite Hd. cbn [fail_save snd].
  fold (settled_session tr s d).
  match goal with
  | |- context [checkRiskLimits ?x] =>
      remember x as wx eqn:Ewx;
      assert (Ax : isActive (mgr wx) = true) by (rewrite Ewx; exact Ha);
      assert (Sx : session (mgr wx) = Some (settled_session tr s d))
        by (rewrite Ewx; reflexivity);
      assert (Cx : config (mgr wx) = config (mgr w)) by (rewrite Ewx; reflexivity);
      assert (Qx : tradeQueue (mgr wx) = tradeQueue (mgr w))
        by (rewrite Ewx; reflexivity);
      assert (Px : stopping wx = stopping w) by (rewrite Ewx; reflexivity);
      destruct (checkRiskLimits_on_active wx _ Ax Sx) as (K1 & K2)
  end.
  rewrite Cx in K1, K2. split.
  - intros q Hq Hq0 Hle. rewrite K1.
    + cbn. rewrite Px. repeat split.
    + left. exists q. repeat split; assumption.
  - intros N1 N2. rewrite K2.
    + cbn. repeat split; assumption.
    + intros [(q & E1 & Hq & _) | (p & i & f & E2 & Hp & _)].
      * assert (C : RiskManager.configured
                      (max_consecutive_losses (config (mgr w)))
                    = Some (Num q)).
        { apply configured_Some. split; [exact E1|]. now exists q. }
        cbn in C. congruence.
      * assert (C : RiskManager.configured
                      (daily_loss_limit_percentage (config (mgr w)))
                    = Some (Num p)).
        { apply configured_Some. split; [exact E2|]. now exists p. }
        cbn in C. congruence.
Qed.

Lemma updateSessionStats_risk_stop_witness :
  let w := settle_all [loss_result; loss_result] (started config0) in
  let w' := snd (updateSessionStats loss_result no_faults w) in
  isActive (mgr w) = true
  /\ isActive (mgr w') = false
  /\ tradeQueue (mgr w') = []
  /\ stopping w' = stopping w ++ ["risk_limit_breach"%string].
Proof.
  cbv zeta. split; [reflexivity|].
  apply (updateSessionStats_risk_stop loss_result
           (settle_all [loss_result; loss_result] (started config0))
           (settled_session loss_result
              (settled_session loss_result session0 session0)
              (settled_session loss_result session0 session0))
           (settled_session loss_result
              (settled_session loss_result session0 session0)
              (settled_session loss_result session0 session0))
           (10000 + - 10 + - 10) 0 10) with (q := 3);
    try reflexivity.
  - intros H. discriminate H.
  - unfold Qle. simpl. lia.
Defined.

(** X11.  After a fault-free [updateSessionStats] with numeric payout [P]
    and stake [K], the flag [lastTradeFailed] that drives the martingale
    is true exactly when the profit or loss is not positive: for a win
    when [P <= K], for any other result when [0 <= K]. *)
Theorem lastTradeFailed_after_settlement :
  forall (tr : TradeResult) (w : World) (s d : TradingSession) (P K : Q),
    session (mgr w) = Some s -> session_doc (db w) = Some d ->
    payout tr = Num P -> stake tr = Num K ->
    lastTradeFailed (mgr (snd (updateSessionStats tr no_faults w))) = true
    <-> (result tr = "win"%string /\ P <= K)
        \/ (result tr <> "win"%string /\ 0 <= K).
Proof.
  intros tr w s d P K Hs Hd HP HK.
  destruct (updateSessionStats_record tr w s d Hs Hd)
    as (w' & E & _ & _ & _ & L).
  rewrite E. cbn [snd]. rewrite L. unfold profitOrLoss. rewrite HP, HK.
  destruct (result tr =? "win")%string eqn:W.
  - apply String.eqb_eq in W. cbn [sub]. rewrite le_Num. split.
    + intros H. left. split; [exact W | lra].
    + intros [(_ & H) | (H & _)]; [lra | contradiction].
  - apply String.eqb_neq in W. cbn [neg]. rewrite le_Num. split.
    + intros H. right. split; [exact W | lra].
    + intros [(H & _) | (_ & H)]; [contradiction | lra].
Qed.

Lemma lastTradeFailed_after_settlement_witness :
  lastTradeFailed
    (mgr (snd (updateSessionStats loss_result no_faults (started config0))))
  = true.
Proof.
  apply (lastTradeFailed_after_settlement
           loss_result (started config0) session0 session0 0 10);
    try reflexivity.
  right. split; [discriminate|]. unfold Qle. simpl. lia.
Defined.



(** X13.  A stop requested after an earlier stop has run to its end
    changes nothing: for a manager with a session, a stored document and
    no stop under way, [stopSession] followed by its completion and a
    second [stopSession] gives the same process as the first stop
    alone. *)
Theorem stop_after_completed_stop :
  forall (w : World) (s d : TradingSession) (r1 r2 : string) (now : Z),
    stopping w = [] ->
    session (mgr w) = Some s -> session_doc (db w) = Some d ->
    run [Stop r1; StopResumes 0 now false; Stop r2] w
    = run [Stop r1; StopResumes 0 now false] w.
Proof.
  intros w s d r1 r2 now Hst Hs Hd. unfold run. cbn [fold_left step].
  destruct (negb (isActive (mgr w)) && status_not_active (mgr w)) eqn:G.
  - assert (N : forall r, stopSession r w = w)
      by (intros r; unfold stopSession; now rewrite G).
    rewrite (N r1), Hst. cbn [nth_error]. apply N.
  - assert (E : stopSession r1 w
                = set_stopping [r1]
                    (with_mgr (fun m => set_tradeQueue [] (set_isActive false m))
                              w)).
    { unfold stopSession. rewrite G. cbn [stopping with_mgr]. now rewrite Hst. }
    rewrite E. cbn [stopping set_stopping nth_error remove_nth].
    apply (stopSession_twice_in_sequence r1 r2 now _ s d); assumption.
Qed.

Lemma stop_after_completed_stop_witness :
  run [Stop "risk_limit_breach"; StopResumes 0 9 false; Stop "user_request"]
      (started config0)
  = run [Stop "risk_limit_breach"; StopResumes 0 9 false] (started config0).
Proof.
  apply (stop_after_completed_stop (started config0) session0 session0);
    reflexivity.
Defined.

(** ** The market-data stream *)

Lemma apply_op_ok (s0 s : MarketDataStream.t) (o : Op) :
  stream_ok s0 s -> stream_ok s0 (fst (apply_op o s)).
Proof.
  intros (A & B & C & D & E).
  assert (closing : forall code random,
            stream_ok s0 (fst (_onClose s code random))).
  { intros code random. unfold _onClose.
    destruct (reconnectAttempts s <? MAX_RECONNECTS s)%nat eqn:L;
      cbn [fst]; unfold stream_ok; cbn; repeat split;
      try assumption; try discriminate.
    apply Nat.ltb_lt in L. lia. }
  destruct o as [| |code random|code random|random|]; cbn [apply_op].
  - unfold connect. destruct (isConnecting s || isConnected s) eqn:G;
      cbn [fst]; [repeat split; assumption|].
    apply orb_false_iff in G. destruct G as (G1 & G2).
    unfold stream_ok. cbn. repeat split; try assumption.
    intros _. exact G2.
  - unfold connect_timeout. destruct (negb (isConnecting s));
      cbn [fst]; [repeat split; assumption|].
    unfold stream_ok. cbn. repeat split; try assumption; try lia;
      try discriminate.
  - apply closing.
  - unfold _simulateClose.
    destruct (negb (isConnected s) && negb (isConnecting s));
      [repeat split; assumption | apply closing].
  - unfold _onError.
    destruct (negb (isConnected s) && negb (isConnecting s));
      cbn [fst]; [apply closing | repeat split; assumption].
  - unfold disconnect, stream_ok. cbn. repeat split; try assumption;
      try discriminate. lia.
Qed.

Lemma run_ops_ok (ops : list Op) (s0 s : MarketDataStream.t) :
  stream_ok s0 s -> stream_ok s0 (run_ops ops s).
Proof.
  revert s. induction ops as [|o ops IH]; intros s H; cbn; [exact H|].
  apply IH, apply_op_ok, H.
Qed.

(** X14.  Whatever calls a new stream receives (connects, handshake
    timers, closes, errors, disconnects, in any order), its attempt
    counter never exceeds [MAX_RECONNECTS], which stays 5, the base delay
    stays 1000, it is never connecting and connected at once, and its
    tick timer runs only while it is connected. *)
Theorem stream_invariant :
  forall ops : list Op,
    let s := run_ops ops MarketDataStream.constructor in
    MAX_RECONNECTS s = 5%nat
    /\ RECONNECT_DELAY_BASE s = Num 1000
    /\ (reconnectAttempts s <= 5)%nat
    /\ (isConnecting s = true -> isConnected s = false)
    /\ (ticking s = true -> isConnected s = true).
Proof.
  intros ops. cbv zeta.
  destruct (run_ops_ok ops MarketDataStream.constructor
              MarketDataStream.constructor) as (A & B & C & D & E).
  { unfold stream_ok. cbn. repeat split; try discriminate; lia. }
  rewrite A in C. repeat split; assumption.
Qed.





Lemma closes_within_budget (k : nat) (s : MarketDataStream.t) (code : Z)
    (randoms : nat -> Q) :
  (reconnectAttempts s + k <= MAX_RECONNECTS s)%nat ->
  reconnectAttempts (fst (closes k s code randoms)) = (reconnectAttempts s + k)%nat
  /\ MAX_RECONNECTS (fst (closes k s code randoms)) = MAX_RECONNECTS s
  /\ existsb is_error (snd (closes k s code randoms)) = false
  /\ List.length (filter is_timer (snd (closes k s code randoms))) = k.
Proof.
  induction k as [|k IH]; intros H.
  - cbn. repeat split. lia.
  - cbn [closes].
    destruct (closes k s code randoms) as [s1 out1] eqn:C.
    cbn [fst snd] in IH. destruct IH as (I1 & I2 & I3 & I4); [lia|].
    unfold _onClose.
    assert (L : (reconnectAttempts s1 <? MAX_RECONNECTS s1)%nat = true)
      by (apply Nat.ltb_lt; lia).
    rewrite L. cbn [fst snd reconnectAttempts MAX_RECONNECTS].
    rewrite existsb_app, filter_app, length_app, I3, I4. cbn.
    repeat split; lia.
Qed.

(** X16.  A successful handshake gives the reconnect budget back: after
    [_onOpen], up to [MAX_RECONNECTS] closes in a row each schedule one
    reconnect and emit no error; one more close emits the error. *)
Theorem open_restores_reconnect_budget :
  forall (s : MarketDataStream.t) (code : Z) (randoms : nat -> Q) (k : nat),
    (k <= MAX_RECONNECTS s)%nat ->
    let opened := fst (_onOpen s) in
    existsb is_error (snd (closes k opened code randoms)) = false
    /\ List.length (filter is_timer (snd (closes k opened code randoms))) = k
    /\ existsb is_error
         (snd (closes (S (MAX_RECONNECTS s)) opened code randoms)) = true.
Proof.
  intros s code randoms k Hk. cbv zeta.
  destruct (closes_within_budget k (fst (_onOpen s)) code randoms)
    as (_ & _ & A & B); [cbn; lia|].
  split; [exact A|]. split; [exact B|].
  cbn [closes].
  destruct (closes_within_budget (MAX_RECONNECTS s) (fst (_onOpen s))
              code randoms) as (C1 & C2 & _ & _); [cbn; lia|].
  destruct (closes (MAX_RECONNECTS s) (fst (_onOpen s)) code randoms)
    as [s1 out1].
  cbn [fst snd] in *. unfold _onClose.
  assert (L : (reconnectAttempts s1 <? MAX_RECONNECTS s1)%nat = false)
    by (apply Nat.ltb_ge; rewrite C1, C2; cbn; lia).
  rewrite L. cbn [snd]. rewrite existsb_app. cbn. apply orb_true_r.
Qed.

Lemma open_restores_reconnect_budget_witness :
  existsb is_error
    (snd (closes 5 (fst (_onOpen (fst (closes 3 MarketDataStream.constructor
                                              1006 (fun _ => 0)))))
                 1006 (fun _ => 0.25))) = false.
Proof.
  apply (open_restores_reconnect_budget
           (fst (closes 3 MarketDataStream.constructor 1006 (fun _ => 0)))
           1006 (fun _ => 0.25) 5).
  cbn. lia.
Defined.

Lemma closes_exhausted (k : nat) (s : MarketDataStream.t) (code : Z)
    (randoms : nat -> Q) :
  reconnectAttempts s = MAX_RECONNECTS s ->
  reconnectAttempts (fst (closes k s code randoms)) = MAX_RECONNECTS s
  /\ MAX_RECONNECTS (fst (closes k s code randoms)) = MAX_RECONNECTS s
  /\ filter is_timer (snd (closes k s code randoms)) = []
  /\ isConnected (fst (closes (S k) s code randoms)) = false.
Proof.
  intros H.
  assert (G : reconnectAttempts (fst (closes k s code randoms)) = MAX_RECONNECTS s
              /\ MAX_RECONNECTS (fst (closes k s code randoms)) = MAX_RECONNECTS s
              /\ filter is_timer (snd (closes k s code randoms)) = []).
  { induction k as [|k IH]; [cbn; repeat split; assumption|].
    cbn [closes].
    destruct (closes k s code randoms) as [s1 out1].
    cbn [fst snd] in IH. destruct IH as (I1 & I2 & I3).
    unfold _onClose.
    assert (L : (reconnectAttempts s1 <? MAX_RECONNECTS s1)%nat = false)
      by (apply Nat.ltb_ge; lia).
    rewrite L. cbn [fst snd reconnectAttempts MAX_RECONNECTS].
    rewrite filter_app, I3. cbn. repeat split; assumption. }
  destruct G as (G1 & G2 & G3). repeat split; try assumption.
  cbn [closes]. destruct (closes k s code randoms) as [s1 out1].
  unfold _onClose. destruct (_ <? _)%nat; reflexivity.
Qed.

(** X17.  After [disconnect()] no close ever schedules a reconnect: the
    attempt counter sits at [MAX_RECONNECTS], [disconnect] itself and
    every following close set no timer, and the stream stays
    disconnected. *)
Theorem disconnect_schedules_no_reconnect :
  forall (s : MarketDataStream.t) (code : Z) (randoms : nat -> Q) (k : nat),
    let s0 := fst (disconnect s) in
    filter is_timer (snd (disconnect s)) = []
    /\ filter is_timer (snd (closes k s0 code randoms)) = []
    /\ reconnectAttempts (fst (closes k s0 code randoms)) = MAX_RECONNECTS s
    /\ isConnected (fst (closes k s0 code randoms)) = false.
Proof.
  intros s code randoms k. cbv zeta. split; [reflexivity|].
  destruct (closes_exhausted k (fst (disconnect s)) code randoms)
    as (A & _ & C & _); [reflexivity|].
  split; [exact C|]. split; [exact A|].
  destruct k as [|k]; [reflexivity|].
  destruct (closes_exhausted k (fst (disconnect s)) code randoms)
    as (_ & _ & _ & D); [reflexivity|].
  exact D.
Qed.

Lemma nth_error_last_app {A : Type} (l : list A) (x : A) :
  nth_error (l ++ [x]) (List.length (l ++ [x]) - 1) = Some x.
Proof.
  rewrite length_app. cbn [List.length].
  replace (List.length l + 1 - 1)%nat with (List.length l) by lia.
  rewrite nth_error_app2 by lia. now rewrite Nat.sub_diag.
Qed.

Lemma remove_nth_last_app {A : Type} (l : list A) (x : A) :
  remove_nth (List.length (l ++ [x]) - 1) (l ++ [x]) = l.
Proof.
  rewrite length_app. cbn [List.length].
  replace (List.length l + 1 - 1)%nat with (List.length l) by lia.
  induction l as [|y l IH]; [reflexivity|].
  cbn. now rewrite IH.
Qed.

(** X18.  A stop does not disarm a reconnect timer of the feed.
    [stopSession] disconnects the stream and drops the listeners but
    leaves the timers; when a reconnect timer set by an earlier close then
    fires, and after it the handshake timer it sets, the stream is
    connected and ticking again with its attempt counter at 0, while the
    manager stays inactive and listens to nothing. *)
Theorem stop_leaves_reconnect_timer_armed :
  forall (w : World) (reason : string) (now : Z) (th : bool) (i : nat)
         (d : number),
    nth_error (timers w) i = Some (ReconnectAfter d) ->
    let w1 := stopSession_resume reason now th w in
    let w2 := step (TimerFires i) w1 in
    let w3 := step (TimerFires (List.length (timers w2) - 1)) w2 in
    timers w1 = timers w
    /\ isConnected (marketDataStream (mgr w1)) = false
    /\ isConnected (marketDataStream (mgr w3)) = true
    /\ ticking (marketDataStream (mgr w3)) = true
    /\ reconnectAttempts (marketDataStream (mgr w3)) = 0%nat
    /\ isActive (mgr w3) = false
    /\ listening w3 = false.
Proof.
  intros w reason now th i d Hn. cbv zeta.
  remember (stopSession_resume reason now th w) as w1 eqn:Ew1.
  assert (T1 : timers w1 = timers w).
  { rewrite Ew1. unfold stopSession_resume. cbn.
    destruct (session (mgr w)); [|reflexivity].
    destruct th; [reflexivity|]. destruct (session_doc (db w)); reflexivity. }
  assert (F1 : marketDataStream (mgr w1)
               = fst (disconnect (marketDataStream (mgr w)))).
  { rewrite Ew1. unfold stopSession_resume. cbn.
    destruct (session (mgr w)); [|reflexivity].
    destruct th; [reflexivity|]. destruct (session_doc (db w)); reflexivity. }
  assert (A1 : isActive (mgr w1) = false).
  { rewrite Ew1. unfold stopSession_resume. reflexivity. }
  assert (L1 : listening w1 = false).
  { rewrite Ew1. unfold stopSession_resume. cbn.
    destruct (session (mgr w)); [|reflexivity].
    destruct th; [reflexivity|]. destruct (session_doc (db w)); reflexivity. }
  clear Ew1.
  split; [exact T1|]. split; [rewrite F1; reflexivity|].
  assert (E2 : step (TimerFires i) w1
               = set_timers (remove_nth i (timers w) ++ [OpenAfter (Num 100)])
                   (with_mgr
                      (set_marketDataStream
                         (fst (connect (fst (disconnect (marketDataStream (mgr w)))))))
                      w1)).
  { cbn [step]. rewrite T1, Hn. unfold on_feed.
    cbn [set_timers mgr]. rewrite F1. cbn. reflexivity. }
  rewrite E2. cbn [timers set_timers].
  cbn [step timers set_timers].
  rewrite nth_error_last_app, remove_nth_last_app.
  unfold on_feed. cbn. rewrite A1, L1. repeat split.
Qed.

Lemma stop_leaves_reconnect_timer_armed_witness :
  let w := run [FeedClose 1006 0.5; Stop "user_request"] (started config0) in
  let w1 := stopSession_resume "user_request" 10 false w in
  let w2 := step (TimerFires 1) w1 in
  let w3 := step (TimerFires (List.length (timers w2) - 1)) w2 in
  timers w1 = timers w
  /\ isConnected (marketDataStream (mgr w1)) = false
  /\ isConnected (marketDataStream (mgr w3)) = true
  /\ ticking (marketDataStream (mgr w3)) = true
  /\ reconnectAttempts (marketDataStream (mgr w3)) = 0%nat
  /\ isActive (mgr w3) = false
  /\ listening w3 = false.
Proof.
  apply (stop_leaves_reconnect_timer_armed
           (run [FeedClose 1006 0.5; Stop "user_request"] (started config0))
           "user_request" 10 false 1 (Num (1 * 1000 + 0.5 * 1000))).
  reflexivity.
Defined.

Lemma stopSession_active (reason : string) (w : World) :
  isActive (mgr w) = true ->
  stopSession reason w
  = set_stopping (stopping w ++ [reason])
      (with_mgr (fun m => set_tradeQueue [] (set_isActive false m)) w).
Proof. intros H. unfold stopSession. now rewrite H. Qed.

(** X19.  A WebSocket error always stops a listening, active session,
    also when the stream goes on reconnecting: after [_onError] the
    manager is inactive, its queue is empty and a
    [stopSession('market_data_error')] is under way; when the stream was
    idle with attempts left, a reconnect timer has been set all the
    same. *)
Theorem feed_error_stops_session :
  forall (w : World) (random : Q),
    listening w = true -> isActive (mgr w) = true ->
    let w' := on_feed (fun s => _onError s random) w in
    isActive (mgr w') = false
    /\ tradeQueue (mgr w') = []
    /\ (exists more, stopping w'
                     = stopping w ++ "market_data_error"%string :: more)
    /\ (isConnected (marketDataStream (mgr w)) = false ->
        isConnecting (marketDataStream (mgr w)) = false ->
        (reconnectAttempts (marketDataStream (mgr w))
         < MAX_RECONNECTS (marketDataStream (mgr w)))%nat ->
        exists d, timers w' = timers w ++ [ReconnectAfter d]).
Proof.
  intros w random Hl Ha. cbv zeta. unfold on_feed, _onError.
  destruct (isConnected (marketDataStream (mgr w))) eqn:C;
    [|destruct (isConnecting (marketDataStream (mgr w))) eqn:G];
    cbn [negb andb].
  - cbn [deliver_all fold_left deliver listening with_mgr]. rewrite Hl.
    unfold stopSession. cbn. rewrite Ha. cbn.
    repeat split; try discriminate. exists []. reflexivity.
  - cbn [deliver_all fold_left deliver listening with_mgr]. rewrite Hl.
    unfold stopSession. cbn. rewrite Ha. cbn.
    repeat split; try discriminate. exists []. reflexivity.
  - unfold _onClose.
    destruct (reconnectAttempts (marketDataStream (mgr w))
              <? MAX_RECONNECTS (marketDataStream (mgr w)))%nat eqn:L;
      cbn [fst snd app deliver_all fold_left deliver listening with_mgr
           set_timers].
    + rewrite Hl. unfold stopSession. cbn. rewrite Ha. cbn.
      repeat split.
      * exists []. reflexivity.
      * intros _ _ _. eexists. reflexivity.
    + rewrite Hl.
      match goal with
      | |- context [stopSession ?r ?x] =>
          match x with
          | context [stopSession] => fail 1
          | _ => rewrite (stopSession_active r x Ha)
          end
      end.
      cbn [listening set_stopping with_mgr]. rewrite Hl.
      apply Nat.ltb_ge in L.
      unfold stopSession. cbn.
      destruct (status_not_active _); cbn; repeat split;
        try (intros _ _ K; exfalso; lia).
      * exists []. reflexivity.
      * exists ["market_data_error"%string]. rewrite <- app_assoc. reflexivity.
Qed.

Lemma feed_error_stops_session_witness :
  let w' := on_feed (fun s => _onError s 0.5) (started config0) in
  isActive (mgr w') = false
  /\ tradeQueue (mgr w') = []
  /\ (exists more, stopping w' = "market_data_error"%string :: more).
Proof.
  cbv zeta.
  destruct (feed_error_stops_session (started config0) 0.5)
    as (A & B & C & _); try reflexivity.
  repeat split; assumption.
Defined.

(** ** Failure isolation and monotonicity *)

Lemma dispatch_frame (queue : list Job) (w : World) :
  lastTradeFailed (mgr (dispatch queue w)) = lastTradeFailed (mgr w)
  /\ stopping (dispatch queue w) = stopping w
  /\ config (mgr (dispatch queue w)) = config (mgr w).
Proof.
  revert w. induction queue as [|job rest IH]; intros w; simpl;
    [repeat split|].
  destruct (_ <? _)%Z; [|repeat split].
  destruct (IH (launch job rest w)) as (A & B & C).
  rewrite A, B, C. repeat split.
Qed.

Lemma job_finally_frame (w : World) :
  isActive (mgr (job_finally w)) = isActive (mgr w)
  /\ lastTradeFailed (mgr (job_finally w)) = lastTradeFailed (mgr w)
  /\ stopping (job_finally w) = stopping w.
Proof.
  unfold job_finally.
  destruct (tradeQueue _); [repeat split|].
  destruct (_ <? _)%Z; [|repeat split].
  unfold processTradeQueue. rewrite dispatch_isActive.
  match goal with
  | |- context [dispatch ?q ?x] => destruct (dispatch_frame q x) as (A & B & _)
  end.
  rewrite A, B. repeat split.
Qed.

(** X20.  A job whose venue call throws, or whose execution had already
    returned (inactive manager or risk rejection), leaves no trace
    outside the scheduler: when its turn ends the session handle, the
    store, the flags [isActive] and [lastTradeFailed] and the pending
    stops are as before. *)
Theorem failed_job_is_isolated :
  forall (w : World) (i : nat) (e : Execution) (venue : VenueOutcome)
         (f : Faults),
    nth_error (inFlight w) i = Some e ->
    e = Returned \/ venue = VenueThrows ->
    let w' := step (Settle i venue f) w in
    session (mgr w') = session (mgr w)
    /\ db w' = db w
    /\ isActive (mgr w') = isActive (mgr w)
    /\ lastTradeFailed (mgr w') = lastTradeFailed (mgr w)
    /\ stopping w' = stopping w.
Proof.
  intros w i e venue f Hn He. cbv zeta. cbn [step]. rewrite Hn. unfold settle.
  assert (E : snd (executeTrade_resume e venue f
                     (set_inFlight (remove_nth i (inFlight w)) w))
              = set_inFlight (remove_nth i (inFlight w)) w).
  { destruct He as [-> | ->]; [reflexivity|]. destruct e; reflexivity. }
  rewrite E.
  match goal with
  | |- context [job_finally ?x] =>
      destruct (job_finally_session x) as (A & B);
      destruct (job_finally_frame x) as (C & D & F)
  end.
  rewrite A, B, C, D, F. repeat split.
Qed.

Lemma failed_job_is_isolated_witness :
  let w := run one_tick (started config0) in
  let w' := step (Settle 0 VenueThrows no_faults) w in
  session (mgr w') = session (mgr w)
  /\ db w' = db w
  /\ isActive (mgr w') = isActive (mgr w)
  /\ lastTradeFailed (mgr w') = lastTradeFailed (mgr w)
  /\ stopping w' = stopping w.
Proof.
  apply (failed_job_is_isolated
           (run one_tick (started config0)) 0
           (AwaitingVenue
              (mkParams "call" (VNum (Num 10)) (Num 60) (VNum (Num 3000)))
              analysis0)
           VenueThrows no_faults).
  - reflexivity.
  - right. reflexivity.
Defined.

(** X21.  Approval is monotone: a trade approved for a stake and a
    balance is approved for every smaller positive stake and every larger
    balance. *)
Theorem approveTrade_monotone :
  forall (s s' : TradingSession) (a a' : Analysis) (q q' bal bal' : Q),
    amount a = VNum (Num q) -> final_balance s = Num bal ->
    amount a' = VNum (Num q') -> final_balance s' = Num bal' ->
    0 < q' -> q' <= q -> bal <= bal' ->
    RiskManager.approveTrade (Some s) (Some a) = true ->
    RiskManager.approveTrade (Some s') (Some a') = true.
Proof.
  intros s s' a a' q q' bal bal' Ha Hs Ha' Hs' Hq' Hqq Hbb H.
  apply (approveTrade_rational s a q bal Ha Hs) in H.
  apply (approveTrade_rational s' a' q' bal' Ha' Hs').
  destruct H as (H1 & H2). split; lra.
Qed.

Lemma approveTrade_monotone_witness :
  RiskManager.approveTrade
    (Some session0) (Some (mkAnalysis "put" (VNum (Num 5)) (Num 60) (Num 0.5)))
  = true.
Proof.
  apply (approveTrade_monotone session0 session0 analysis0
           (mkAnalysis "put" (VNum (Num 5)) (Num 60) (Num 0.5))
           10 5 10000 10000);
    try reflexivity; unfold Qlt, Qle; simpl; lia.
Defined.

(** X22.  With a base stake [b > 0] and a multiplier [m >= 1], the stake
    after a failed trade is at least the base stake and does not shrink
    when one more loss is counted. *)
Theorem martingale_stake_grows :
  forall (n : nat) (b m : Q),
    0 < b -> 1 <= m ->
    exists x y,
      TradingEngine.applyMartingaleStrategy true n (VNum (Num b)) (Some (Num m))
      = VNum (Num x)
      /\ TradingEngine.applyMartingaleStrategy true (S n) (VNum (Num b))
           (Some (Num m))
         = VNum (Num y)
      /\ b <= x /\ x <= y.
Proof.
  intros n b m Hb Hm.
  assert (G : forall k,
            TradingEngine.applyMartingaleStrategy true k (VNum (Num b))
              (Some (Num m))
            = VNum (Num (b * m ^ Z.of_nat k))).
  { intros k. unfold TradingEngine.applyMartingaleStrategy.
    destruct (le (Num b) (Num 0)) eqn:E.
    - apply le_Num in E. lra.
    - destruct k; reflexivity. }
  exists (b * m ^ Z.of_nat n), (b * m ^ Z.of_nat (S n)).
  split; [apply G|]. split; [apply G|].
  assert (P1 : 1 <= m ^ Z.of_nat n) by (apply Qpower_1_le; [exact Hm | lia]).
  assert (P2 : m ^ Z.of_nat n <= m ^ Z.of_nat (S n))
    by (apply Qpower_le_compat_l; [lia | exact Hm]).
  split.
  - apply Qle_trans with (b * 1); [lra|].
    rewrite (Qmult_comm b 1), (Qmult_comm b (m ^ Z.of_nat n)).
    apply Qmult_le_compat_r; lra.
  - rewrite (Qmult_comm b (m ^ Z.of_nat n)),
            (Qmult_comm b (m ^ Z.of_nat (S n))).
    apply Qmult_le_compat_r; lra.
Qed.

Lemma martingale_stake_grows_witness :
  exists x y,
    TradingEngine.applyMartingaleStrategy true 2 (VNum (Num 10)) (Some (Num 2))
    = VNum (Num x)
    /\ TradingEngine.applyMartingaleStrategy true 3 (VNum (Num 10)) (Some (Num 2))
       = VNum (Num y)
    /\ 10 <= x /\ x <= y.
Proof.
  apply (martingale_stake_grows 2 10 2); unfold Qlt, Qle; simpl; lia.
Defined.

(** X23.  The advice to stop is monotone: when [checkSessionLimits]
    says stop for a snapshot, it says stop for every snapshot with the
    same initial balance and limits, at least as many consecutive losses
    and a balance that is a number and not higher. *)
Theorem checkSessionLimits_monotone :
  forall (initial final : number) (f' : Q) (losses losses' : nat)
         (c : RiskManager.LimitsConfig),
    (losses <= losses')%nat ->
    Le (Num f') final ->
    RiskManager.checkSessionLimits
      (Some (RiskManager.mkState initial final losses (Some c)))
    = RiskManager.Stop ->
    RiskManager.checkSessionLimits
      (Some (RiskManager.mkState initial (Num f') losses' (Some c)))
    = RiskManager.Stop.
Proof.
  intros initial final f' losses losses' c Hl Hf H.
  apply checkSessionLimits_stop_only_if in H.
  apply checkSessionLimits_stop_if.
  destruct H as [(q & E & Hq & Hle) | (p & i & f & E & Hp & Hi & Hfin & Hle)].
  - left. exists q. repeat split; try assumption.
    apply Qle_trans with (inject_Z (Z.of_nat losses)); [assumption|].
    rewrite <- Zle_Qle. lia.
  - right. subst final. inversion Hf as [x y Hxy Ex Ey]. subst.
    exists p, i, f'. repeat split; try assumption. lra.
Qed.

Lemma checkSessionLimits_monotone_witness :
  RiskManager.checkSessionLimits
    (Some (RiskManager.mkState (Num 10000) (Num 8000) 4
             (Some (RiskManager.mkLimits (Some (Num 3)) (Some (Num 0.1))))))
  = RiskManager.Stop.
Proof.
  apply (checkSessionLimits_monotone (Num 10000) (Num 9000) 8000 3 4).
  - lia.
  - constructor. unfold Qle; simpl; lia.
  - reflexivity.
Defined.
